(** * Dispatch Companion: the status / queue / streak / metrics engine

    A shallow embedding of the engine of the Obsidian plugin (the richer
    variant with the streak and milestone features, and the plain variant
    where the two differ), and the properties of it that the design
    document states.

    Conventions.
    - A JavaScript number that holds a count or a millisecond timestamp is
      a [Z]; [NaN] (an unparsable date) is [None].
    - A path, a note, a slug is a [string]; only equality is used on them.
    - The [notes] object of the queue is a finite map from paths to notes.
    - The vault and the clock are read through a [Host] value, given to
      every operation; what an operation writes outside the plugin object
      (notices, files, persisted data) is returned as a list of [Effect]s,
      in the order the code issues them. *)

From Stdlib Require Import ZArith List Lia Bool.
From Stdlib Require Import Strings.String Strings.Ascii.
From Stdlib Require Import Orders Sorting.Mergesort Sorting.Sorted Sorting.Permutation.
From stdpp Require Import base gmap strings list sorting pretty.

Import ListNotations.
Local Open Scope string_scope.
Local Open Scope Z_scope.
Local Open Scope list_scope.

(** ** Calendar days

    [moment] is used at the granularity of a day: a moment is the local
    calendar day it falls on.  A day is shown as the ten characters
    "YYYY-MM-DD" by [format_date]; [parse_date] reads that shape back and
    gives [None] (an invalid moment) for anything else. *)

Record Date := mkDate {
  year : Z;
  month : Z;
  day : Z
}.

Definition isLeapYear (y : Z) : bool :=
  (y mod 4 =? 0) && (negb (y mod 100 =? 0) || (y mod 400 =? 0)).

Definition daysInMonth (y m : Z) : Z :=
  if m =? 2 then (if isLeapYear y then 29 else 28)
  else if (m =? 4) || (m =? 6) || (m =? 9) || (m =? 11) then 30
  else 31.

(** The days that "YYYY-MM-DD" can show: years 0000 to 9999. *)
Definition validDate (d : Date) : bool :=
  (0 <=? year d) && (year d <=? 9999) &&
  (1 <=? month d) && (month d <=? 12) &&
  (1 <=? day d) && (day d <=? daysInMonth (year d) (month d)).

(** [m.subtract(1, "day")]. *)
Definition subtractDay (d : Date) : Date :=
  if 1 <? day d then mkDate (year d) (month d) (day d - 1)
  else if 1 <? month d
       then mkDate (year d) (month d - 1) (daysInMonth (year d) (month d - 1))
       else mkDate (year d - 1) 12 31.

Definition date_compare (a b : Date) : comparison :=
  match year a ?= year b with
  | Eq => match month a ?= month b with
          | Eq => day a ?= day b
          | c => c
          end
  | c => c
  end.

(** [a.isSame(b, "day")] and [a.isBefore(b, "day")]. *)
Definition isSame (a b : Date) : bool :=
  match date_compare a b with Eq => true | _ => false end.

Definition isBefore (a b : Date) : bool :=
  match date_compare a b with Lt => true | _ => false end.

(** The decimal digit of [n]; a question mark outside 0..9. *)
Definition digit (n : Z) : ascii :=
  match n with
  | 0 => "0" | 1 => "1" | 2 => "2" | 3 => "3" | 4 => "4"
  | 5 => "5" | 6 => "6" | 7 => "7" | 8 => "8" | 9 => "9"
  | _ => "?"
  end%char.

Definition digit_val (c : ascii) : option Z :=
  (if Ascii.eqb c "0" then Some 0 else if Ascii.eqb c "1" then Some 1
   else if Ascii.eqb c "2" then Some 2 else if Ascii.eqb c "3" then Some 3
   else if Ascii.eqb c "4" then Some 4 else if Ascii.eqb c "5" then Some 5
   else if Ascii.eqb c "6" then Some 6 else if Ascii.eqb c "7" then Some 7
   else if Ascii.eqb c "8" then Some 8 else if Ascii.eqb c "9" then Some 9
   else None)%char.

(** Two digits, zero padded, in front of [rest]. *)
Definition pad2 (n : Z) (rest : string) : string :=
  String (digit (n / 10)) (String (digit (n mod 10)) rest).

(** [moment.format("YYYY-MM-DD")]. *)
Definition format_date (d : Date) : string :=
  pad2 (year d / 100) (pad2 (year d mod 100)
    (String "-" (pad2 (month d) (String "-" (pad2 (day d) ""))))).

Definition two_digits (c1 c0 : ascii) : option Z :=
  match digit_val c1, digit_val c0 with
  | Some a, Some b => Some (10 * a + b)
  | _, _ => None
  end.

(** [moment(s, "YYYY-MM-DD")], for the texts that have that shape. *)
Definition parse_date (s : string) : option Date :=
  match s with
  | String y3 (String y2 (String y1 (String y0 (String s1
      (String m1 (String m0 (String s2 (String d1 (String d0 EmptyString))))))))) =>
      if Ascii.eqb s1 "-" && Ascii.eqb s2 "-" then
        match two_digits y3 y2, two_digits y1 y0, two_digits m1 m0, two_digits d1 d0 with
        | Some yh, Some yl, Some m, Some d =>
            let r := mkDate (100 * yh + yl) m d in
            if validDate r then Some r else None
        | _, _, _, _ => None
        end
      else None
  | _ => None
  end.

(** ** The vault, as the host application shows it *)

(** One entry of [CachedMetadata.sections]. *)
Record SectionCache := mkSection {
  section_type : string;
  position_start_line : Z;
  position_end_line : Z
}.

(** [metadataCache.getFileCache(file)]: the sections, when the cache has
    them, and whether the front matter has a truthy [published_url]. *)
Record CachedMetadata := mkCache {
  sections : option (list SectionCache);
  frontmatter_published_url : bool
}.

Record TFile := mkTFile {
  path : string;
  name : string;
  extension : string;
  stat_mtime : Z;
  stat_size : Z;
  (** what [vault.read] gives: [None] when the read rejects *)
  data : option string;
  (** what [getFileCache] gives: [None] for null *)
  fileCache : option CachedMetadata
}.

Inductive TAbstractFile :=
| File (f : TFile)
| Folder (folderPath : string).

Definition abstractPath (a : TAbstractFile) : string :=
  match a with
  | File f => path f
  | Folder p => p
  end.

(** The readings of the clock during one call: [Date.now()],
    [new Date().toISOString()], the local calendar day of [moment()], and
    the bounds
    [moment().startOf("day")] and [moment().endOf("day")]. *)
Record Clock := mkClock {
  now : Z;
  nowISO : string;
  today : Date;
  todayStart : Z;
  todayEnd : Z
}.

Record Host := mkHost {
  vault : list TAbstractFile;
  clock : Clock
}.

Definition getAbstractFileByPath (h : Host) (p : string) : option TAbstractFile :=
  List.find (fun a => String.eqb (abstractPath a) p) (vault h).

Definition getMarkdownFiles (h : Host) : list TFile :=
  flat_map (fun a => match a with
                     | File f => if String.eqb (extension f) "md" then [f] else []
                     | Folder _ => []
                     end) (vault h).

(** ** The two shared files *)

Record DispatchStatusFile := mkStatusFile {
  sf_path : string;
  sf_slug : string;
  sf_title : option string;
  sf_published_url : option string;
  sf_warnings : list string;
  sf_word_count : Z;
  sf_is_safe : bool;
  sf_unlisted : bool;
  sf_has_password : bool;
  sf_modified : Z
}.

Record DispatchStats := mkStats {
  stats_total : Z;
  stats_drafts : Z;
  stats_published : Z;
  stats_total_words : Z
}.

Record DispatchStatus := mkStatus {
  updated_at : string;
  last_publish : option string;
  files : list DispatchStatusFile;
  stats : DispatchStats
}.

Record DispatchQueue := mkQueue {
  queue_updated_at : string;
  ready : list string;
  notes : gmap string string
}.

(** ** The plugin object *)

Record DispatchSettings := mkSettings {
  blogFolder : string;
  enableStreaks : bool;
  celebrateMilestones : bool
}.

Record StreakData := mkStreak {
  dates : list string;
  publishDates : list string
}.

Record Plugin := mkPlugin {
  settings : DispatchSettings;
  dispatchStatus : option DispatchStatus;
  dispatchQueue : option DispatchQueue;
  dailyWordCountCache : Z;
  dailyWordCountDate : string;
  sessionStartWordCount : Z;
  sessionWordsWritten : Z;
  lastMilestoneCelebrated : Z;
  streakData : StreakData
}.

Definition set_dispatchStatus (s : option DispatchStatus) (p : Plugin) : Plugin :=
  mkPlugin (settings p) s (dispatchQueue p) (dailyWordCountCache p)
           (dailyWordCountDate p) (sessionStartWordCount p)
           (sessionWordsWritten p) (lastMilestoneCelebrated p) (streakData p).

Definition set_dispatchQueue (q : option DispatchQueue) (p : Plugin) : Plugin :=
  mkPlugin (settings p) (dispatchStatus p) q (dailyWordCountCache p)
           (dailyWordCountDate p) (sessionStartWordCount p)
           (sessionWordsWritten p) (lastMilestoneCelebrated p) (streakData p).

Definition set_dailyWordCount (n : Z) (day : string) (p : Plugin) : Plugin :=
  mkPlugin (settings p) (dispatchStatus p) (dispatchQueue p) n day
           (sessionStartWordCount p) (sessionWordsWritten p)
           (lastMilestoneCelebrated p) (streakData p).

Definition set_sessionWordsWritten (n : Z) (p : Plugin) : Plugin :=
  mkPlugin (settings p) (dispatchStatus p) (dispatchQueue p)
           (dailyWordCountCache p) (dailyWordCountDate p)
           (sessionStartWordCount p) n (lastMilestoneCelebrated p)
           (streakData p).

Definition set_lastMilestoneCelebrated (n : Z) (p : Plugin) : Plugin :=
  mkPlugin (settings p) (dispatchStatus p) (dispatchQueue p)
           (dailyWordCountCache p) (dailyWordCountDate p)
           (sessionStartWordCount p) (sessionWordsWritten p) n
           (streakData p).

Definition set_streakData (d : StreakData) (p : Plugin) : Plugin :=
  mkPlugin (settings p) (dispatchStatus p) (dispatchQueue p)
           (dailyWordCountCache p) (dailyWordCountDate p)
           (sessionStartWordCount p) (sessionWordsWritten p)
           (lastMilestoneCelebrated p) d.

(** What a call does outside the plugin object. [VaultModify] and
    [VaultCreate] carry the queue whose [JSON.stringify] text is
    written; [SaveData] carries the streak data handed to [saveData]. *)
Inductive Effect :=
| Notice (message : string)
| CreateFolder (folderPath : string)
| VaultModify (filePath : string) (content : DispatchQueue)
| VaultCreate (filePath : string) (content : DispatchQueue)
| SaveData (content : StreakData).

(** ** Publish queue *)

Definition queuePath : string := ".dispatch/queue.json".

(** [Array.prototype.includes] on an array of strings. *)
Definition includes (x : string) (l : list string) : bool :=
  existsb (String.eqb x) l.

Definition freshQueue (h : Host) : DispatchQueue :=
  mkQueue (nowISO (clock h)) [] ∅.

Definition saveDispatchQueue (h : Host) (p : Plugin) : Plugin * list Effect :=
  match dispatchQueue p with
  | None => (p, [])
  | Some q =>
      let q' := mkQueue (nowISO (clock h)) (ready q) (notes q) in
      let mkdir := match getAbstractFileByPath h ".dispatch" with
                   | None => [CreateFolder ".dispatch"]
                   | Some _ => []
                   end in
      let write := match getAbstractFileByPath h queuePath with
                   | Some (File _) => VaultModify queuePath q'
                   | _ => VaultCreate queuePath q'
                   end in
      (set_dispatchQueue (Some q') p, mkdir ++ [write])
  end.

Definition isFileReady (p : Plugin) (filePath : string) : bool :=
  match dispatchQueue p with
  | Some q => includes filePath (ready q)
  | None => false
  end.

(** [if (note)]: an absent note and the empty string are both falsy. *)
Definition noteOrDefault (note : option string) : string :=
  match note with
  | Some n => if String.eqb n "" then "Ready for review" else n
  | None => "Ready for review"
  end.

Definition markReady (h : Host) (file : TFile) (note : option string)
    (p : Plugin) : Plugin * list Effect :=
  let q := match dispatchQueue p with
           | Some q => q
           | None => freshQueue h
           end in
  let ready' := if includes (path file) (ready q)
                then ready q
                else ready q ++ [path file] in
  let notes' := <[path file := noteOrDefault note]> (notes q) in
  let p1 := set_dispatchQueue (Some (mkQueue (queue_updated_at q) ready' notes')) p in
  let '(p2, written) := saveDispatchQueue h p1 in
  (p2, written ++ [Notice ("Marked ready to publish: " +:+ name file)]).

Definition unmarkReady (h : Host) (file : TFile) (p : Plugin)
    : Plugin * list Effect :=
  match dispatchQueue p with
  | None => (p, [])
  | Some q =>
      let ready' := List.filter (fun x => negb (String.eqb x (path file))) (ready q) in
      let notes' := delete (path file) (notes q) in
      let p1 := set_dispatchQueue (Some (mkQueue (queue_updated_at q) ready' notes')) p in
      let '(p2, written) := saveDispatchQueue h p1 in
      (p2, written ++ [Notice ("Unmarked: " +:+ name file)])
  end.

(** The [ready] list and the [notes] map of the plugin; a plugin with no
    queue object has none of either. *)
Definition readyOf (p : Plugin) : list string :=
  match dispatchQueue p with Some q => ready q | None => [] end.

Definition notesOf (p : Plugin) : gmap string string :=
  match dispatchQueue p with Some q => notes q | None => ∅ end.

(** ** Streaks *)

(** [Array.prototype.sort()] with no comparator orders strings by their
    code units; on an array of strings the result is the ascending
    rearrangement, whatever the algorithm. *)
Module StringOrder <: Orders.TotalLeBool.
Definition t := string.
Definition leb := String.leb.
Lemma leb_total : forall s1 s2, leb s1 s2 = true \/ leb s2 s1 = true.
Proof. exact String.leb_total. Qed.
End StringOrder.

Module StringSort := Mergesort.Sort StringOrder.

Definition sort (l : list string) : list string := StringSort.sort l.

(** [l.slice(-n)]: the last [n] elements. *)
Definition sliceLast (n : nat) (l : list string) : list string :=
  skipn (length l - n) l.

Definition todayText (h : Host) : string := format_date (today (clock h)).

Definition recordWritingDay (h : Host) (p : Plugin) : Plugin * list Effect :=
  let sd := streakData p in
  if includes (todayText h) (dates sd) then (p, [])
  else
    let pushed := dates sd ++ [todayText h] in
    let kept := if (365 <? length pushed)%nat then sliceLast 365 pushed else pushed in
    let sd' := mkStreak kept (publishDates sd) in
    (set_streakData sd' p, [SaveData sd']).

Definition recordPublishDay (h : Host) (p : Plugin) : Plugin * list Effect :=
  let sd := streakData p in
  if includes (todayText h) (publishDates sd) then (p, [])
  else
    let pushed := publishDates sd ++ [todayText h] in
    let kept := if (365 <? length pushed)%nat then sliceLast 365 pushed else pushed in
    let sd' := mkStreak (dates sd) kept in
    (set_streakData sd' p, [SaveData sd']).

(** The [for] loop of [getWritingStreak]: [expected] and [streak] are its
    two variables, [break] returns the streak.  On an invalid moment both
    tests are false and the loop goes on. *)
Fixpoint streakLoop (expected : Date) (streak : Z) (l : list string) : Z :=
  match l with
  | [] => streak
  | dateStr :: rest =>
      match parse_date dateStr with
      | Some date =>
          if isSame date expected
          then streakLoop (subtractDay expected) (streak + 1) rest
          else if isBefore date expected then streak
          else streakLoop expected streak rest
      | None => streakLoop expected streak rest
      end
  end.

Definition getWritingStreak (h : Host) (p : Plugin) : Z :=
  match rev (sort (dates (streakData p))) with
  | [] => 0
  | sorted => streakLoop (today (clock h)) 0 sorted
  end.

(** [n] days before [d]. *)
Definition daysBack (n : nat) (d : Date) : Date := Nat.iter n subtractDay d.

(** A text of the shape "YYYY-MM-DD" that names a day of the calendar:
    the test, and what it means. *)
Definition isoDay (s : string) : bool :=
  match parse_date s with
  | Some d => String.eqb s (format_date d)
  | None => false
  end.

Definition dayText (s : string) : Prop :=
  exists d, validDate d = true /\ s = format_date d.

(** ** Session words and milestones *)

(** [f.path.startsWith(blogFolder + "/")]. *)
Definition isBlogFile (p : Plugin) (f : TFile) : bool :=
  String.prefix (blogFolder (settings p) +:+ "/") (path f).

Definition blogFiles (h : Host) (p : Plugin) : list TFile :=
  List.filter (isBlogFile p) (getMarkdownFiles h).

(** [Math.round(size / 5)] for a file size, a non-negative integer. *)
Definition roundFifth (size : Z) : Z := (size + 2) / 5.

Definition getTotalBlogWords (h : Host) (p : Plugin) : Z :=
  match dispatchStatus p with
  | Some s => stats_total_words (stats s)
  | None =>
      fold_left (fun total0 file => total0 + roundFifth (stat_size file))
                (blogFiles h p) 0
  end.

Definition milestones : list Z :=
  [100; 250; 500; 750; 1000; 1500; 2000; 3000; 5000].

(** The [for] loop over the milestones: the first one reached and above
    the last one celebrated, if any. *)
Fixpoint firstMilestone (written last : Z) (ms : list Z) : option Z :=
  match ms with
  | [] => None
  | milestone :: rest =>
      if (milestone <=? written) && (last <? milestone)
      then Some milestone
      else firstMilestone written last rest
  end.

Definition celebrations (words : Z) : string :=
  if words =? 100 then "100 words this session — warming up."
  else if words =? 250 then "250 words — the ideas are flowing."
  else if words =? 500 then "500 words. Half a thousand. Keep going."
  else if words =? 750 then "750 words — you're in the zone."
  else if words =? 1000 then "1,000 words this session. That's an essay."
  else if words =? 1500 then "1,500 words — on fire."
  else if words =? 2000 then "2,000 words. A serious writing session."
  else if words =? 3000 then "3,000 words — prolific."
  else if words =? 5000 then "5,000 words in one session. Legendary."
  else pretty words +:+ " words this session!".

Definition celebrateMilestone (words : Z) : list Effect :=
  [Notice (celebrations words)].

Definition checkSessionMilestones (h : Host) (p : Plugin) : Plugin * list Effect :=
  if negb (celebrateMilestones (settings p)) then (p, [])
  else
    let current := getTotalBlogWords h p in
    let p1 := set_sessionWordsWritten (Z.max 0 (current - sessionStartWordCount p)) p in
    match firstMilestone (sessionWordsWritten p1) (lastMilestoneCelebrated p1) milestones with
    | Some milestone =>
        (set_lastMilestoneCelebrated milestone p1, celebrateMilestone milestone)
    | None => (p1, [])
    end.

(** The milestone celebrated by a call that takes the plugin from [p]
    to [p']: the call celebrates exactly when it moves
    [lastMilestoneCelebrated] (see [celebrated_notice]). *)
Definition celebrated (p p' : Plugin) : option Z :=
  if lastMilestoneCelebrated p' =? lastMilestoneCelebrated p then None
  else Some (lastMilestoneCelebrated p').

(** What may have changed when a modification event arrives: the host,
    the settings, the snapshot held. *)
Record Event := mkEvent {
  ev_host : Host;
  ev_settings : DispatchSettings;
  ev_status : option DispatchStatus
}.

Definition arrive (e : Event) (p : Plugin) : Plugin :=
  mkPlugin (ev_settings e) (ev_status e) (dispatchQueue p)
           (dailyWordCountCache p) (dailyWordCountDate p)
           (sessionStartWordCount p) (sessionWordsWritten p)
           (lastMilestoneCelebrated p) (streakData p).

(** A session: the plugin object goes through the modification events
    one after the other.  The result is the plugin at the end and, for
    each event, the milestone its call celebrated. *)
Fixpoint session (events : list Event) (p : Plugin) : Plugin * list (option Z) :=
  match events with
  | [] => (p, [])
  | e :: rest =>
      let p0 := arrive e p in
      let p1 := fst (checkSessionMilestones (ev_host e) p0) in
      let '(p2, fired) := session rest p1 in
      (p2, celebrated p0 p1 :: fired)
  end.

(** ** Daily word count *)

Definition modifiedToday (h : Host) (f : TFile) : bool :=
  (todayStart (clock h) <=? stat_mtime f) && (stat_mtime f <=? todayEnd (clock h)).

Definition countedSection (s : SectionCache) : bool :=
  String.eqb (section_type s) "paragraph" || String.eqb (section_type s) "heading".

(** The inner loop over [cache.sections]. *)
Definition addSections (wordCount : Z) (ss : list SectionCache) : Z :=
  fold_left (fun wc s =>
               if countedSection s
               then wc + (position_end_line s - position_start_line s + 1) * 10
               else wc) ss wordCount.

(** The first loop, over the blog files. *)
Definition lineSpanLoop (h : Host) (fs : list TFile) : Z :=
  fold_left (fun wc file =>
               if modifiedToday h file then
                 match fileCache file with
                 | Some (mkCache (Some ss) _) => addSections wc ss
                 | _ => wc
                 end
               else wc) fs 0.

(** The second loop, over the files of the snapshot. *)
Definition snapshotLoop (h : Host) (sfs : list DispatchStatusFile) : Z :=
  fold_left (fun wc sf =>
               match getAbstractFileByPath h (sf_path sf) with
               | Some (File vaultFile) =>
                   if modifiedToday h vaultFile then wc + sf_word_count sf else wc
               | _ => wc
               end) sfs 0.

Definition getDailyWordCount (h : Host) (p : Plugin) : Plugin * Z :=
  if String.eqb (dailyWordCountDate p) (todayText h)
  then (p, dailyWordCountCache p)
  else
    let wordCount := lineSpanLoop h (blogFiles h p) in
    let wordCount := match dispatchStatus p with
                     | Some s => snapshotLoop h (files s)
                     | None => wordCount
                     end in
    (set_dailyWordCount wordCount (todayText h) p, wordCount).

(** ** Status snapshot *)

Definition statusPath : string := ".dispatch/status.json".

Definition newline : string := String (ascii_of_nat 10) "".

(** [!cache?.frontmatter?.["published_url"]]. *)
Definition isDraft (f : TFile) : bool :=
  match fileCache f with
  | Some c => negb (frontmatter_published_url c)
  | None => true
  end.

(** A slug that is neither null nor the empty string. *)
Definition truthy (s : option string) : bool :=
  match s with
  | Some x => negb (String.eqb x "")
  | None => false
  end.

(** [a !== b] on values that are a string or null. *)
Definition differs (a b : option string) : bool :=
  match a, b with
  | Some x, Some y => negb (String.eqb x y)
  | None, None => false
  | _, _ => true
  end.

Section Platform.

(** [JSON.parse(content) as DispatchStatus]: [None] when the parse
    throws, or gives a value on which the reads that follow throw. *)
Variable JSON_parse : string -> option DispatchStatus.

(** [new Date(s).getTime()]: [None] for NaN. *)
Variable Date_getTime : string -> option Z.

(** [m.startOf("week")] and [m.format("YYYY-WW")], which follow the
    locale of the host. *)
Variable startOfWeek : Date -> Date.
Variable format_week : Date -> string.

Definition weekOf (d : string) : string :=
  match parse_date d with
  | Some m => format_week (startOfWeek m)
  | None => "Invalid date"
  end.

Fixpoint publishLoop (i : nat) (weekSet : list string) (currentWeek : Date)
    (streak : Z) : Z :=
  match i with
  | O => streak
  | S i' =>
      if includes (format_week currentWeek) weekSet
      then publishLoop i' weekSet (Nat.iter 7 subtractDay currentWeek) (streak + 1)
      else streak
  end.

Definition getPublishStreak (h : Host) (p : Plugin) : Z :=
  match rev (sort (publishDates (streakData p))) with
  | [] => 0
  | sorted => publishLoop 52 (map weekOf sorted) (startOfWeek (today (clock h))) 0
  end.

Definition celebratePublish (h : Host) (slug : string) (p : Plugin)
    : Plugin * list Effect :=
  let '(p1, saved) := recordPublishDay h p in
  let publishStreak := getPublishStreak h p1 in
  let lines := ["Published: " +:+ slug] in
  let lines := if 1 <? publishStreak
               then lines ++ ["Publishing streak: " +:+ pretty publishStreak
                               +:+ " weeks in a row."]
               else lines in
  let totalPublishes := Z.of_nat (length (publishDates (streakData p1))) in
  let lines := if (totalPublishes mod 10 =? 0) && (0 <? totalPublishes)
               then lines ++ ["That's publish #" +:+ pretty totalPublishes +:+ "."]
               else lines in
  let remaining := Z.of_nat (length (List.filter isDraft (blogFiles h p1))) in
  let lines := if remaining =? 0
               then lines ++ ["Inbox zero — every draft is published."]
               else if remaining <=? 3
               then lines ++ ["Almost there — only " +:+ pretty remaining
                               +:+ " draft" +:+ (if remaining =? 1 then "" else "s")
                               +:+ " left."]
               else lines in
  (p1, saved ++ [Notice (String.concat newline lines)]).

(** The variant with the streak features.  The three ways into the
    [catch] block are a read that rejects and the two failures of
    [JSON_parse]; a path that names no file, or names a folder, skips
    the [if] and leaves the [try] without an exception. *)
Definition loadDispatchStatus (h : Host) (p : Plugin) : Plugin * list Effect :=
  match getAbstractFileByPath h statusPath with
  | Some (File file) =>
      match data file with
      | Some content =>
          match JSON_parse content with
          | Some newStatus =>
              let '(p1, shown) :=
                if truthy (last_publish newStatus)
                   && enableStreaks (settings p)
                   && match dispatchStatus p with
                      | None => true
                      | Some held => differs (last_publish held) (last_publish newStatus)
                      end
                then match last_publish newStatus with
                     | Some slug => celebratePublish h slug p
                     | None => (p, [])
                     end
                else (p, []) in
              (set_dispatchStatus (Some newStatus) p1, shown)
          | None => (set_dispatchStatus None p, [])
          end
      | None => (set_dispatchStatus None p, [])
      end
  | _ => (p, [])
  end.

(** The plain variant (main.ts): no publish detection. *)
Definition loadDispatchStatus_plain (h : Host) (p : Plugin) : Plugin :=
  match getAbstractFileByPath h statusPath with
  | Some (File file) =>
      match data file with
      | Some content =>
          match JSON_parse content with
          | Some newStatus => set_dispatchStatus (Some newStatus) p
          | None => set_dispatchStatus None p
          end
      | None => set_dispatchStatus None p
      end
  | _ => p
  end.

Definition isDispatchFresh (h : Host) (p : Plugin) : bool :=
  match dispatchStatus p with
  | None => false
  | Some s =>
      match Date_getTime (updated_at s) with
      | Some updatedAt =>
          let fiveMinutesAgo := now (clock h) - 5 * 60 * 1000 in
          fiveMinutesAgo <? updatedAt
      | None => false
      end
  end.

End Platform.

(** ** Slugs

    [slugify] looks inside its text, so here a string is what it is in
    JavaScript: the sequence of its UTF-16 code units. *)

Definition JSString := list N.

Definition hyphen : N := 45%N.

(** The class [a-z0-9]. *)
Definition isLowerOrDigit (c : N) : bool :=
  ((97 <=? c) && (c <=? 122) || (48 <=? c) && (c <=? 57))%N.

(** [.replace(/[^a-z0-9]+/g, "-")], as the scan of the text from the
    left; [inRun] says that the code unit before was part of a match,
    which the present one then extends. *)
Fixpoint replaceRuns (inRun : bool) (s : JSString) : JSString :=
  match s with
  | [] => []
  | c :: rest =>
      if isLowerOrDigit c then c :: replaceRuns false rest
      else if inRun then replaceRuns true rest
      else hyphen :: replaceRuns true rest
  end.

(** [.replace(/^-|-$/g, "")]: a hyphen at the first place goes, and then
    a hyphen at the last place. *)
Definition stripLeading (s : JSString) : JSString :=
  match s with
  | c :: rest => if (c =? hyphen)%N then rest else s
  | [] => []
  end.

Fixpoint stripTrailing (s : JSString) : JSString :=
  match s with
  | [] => []
  | c :: rest =>
      match rest with
      | [] => if (c =? hyphen)%N then [] else [c]
      | _ :: _ => c :: stripTrailing rest
      end
  end.

Section Slugify.

(** [String.prototype.toLowerCase]. *)
Variable toLowerCase : JSString -> JSString.

Definition slugify (title : JSString) : JSString :=
  stripTrailing (stripLeading (replaceRuns false (toLowerCase title))).

End Slugify.

(** The shape of a slug: lowercase letters, digits and hyphens, no two
    hyphens in a row, no hyphen at either end. *)
Definition isSlugUnit (c : N) : bool := isLowerOrDigit c || (c =? hyphen)%N.

Fixpoint noDoubleHyphen (s : JSString) : bool :=
  match s with
  | c :: rest =>
      match rest with
      | c' :: _ => negb ((c =? hyphen)%N && (c' =? hyphen)%N) && noDoubleHyphen rest
      | [] => true
      end
  | [] => true
  end.

Definition startsWithHyphen (s : JSString) : bool :=
  match s with
  | c :: _ => (c =? hyphen)%N
  | [] => false
  end.

Fixpoint endsWithHyphen (s : JSString) : bool :=
  match s with
  | c :: rest =>
      match rest with
      | [] => (c =? hyphen)%N
      | _ :: _ => endsWithHyphen rest
      end
  | [] => false
  end.

Definition slugShaped (s : JSString) : bool :=
  forallb isSlugUnit s && noDoubleHyphen s
  && negb (startsWithHyphen s) && negb (endsWithHyphen s).

(** A lower-casing for examples: the Latin capitals A to Z go to a to z,
    every other code unit stays. *)
Definition asciiLower (s : JSString) : JSString :=
  map (fun c => if ((65 <=? c) && (c <=? 90))%N then (c + 32)%N else c) s.

(** The code units of a text of the Latin-1 range. *)
Definition codeUnits (s : string) : JSString :=
  map N_of_ascii (list_ascii_of_string s).

(** * Notions used in the statements *)

(** The invariant of the queue: every key of [notes] is in [ready]. *)
Definition notesWithinReady (p : Plugin) : Prop :=
  forall k, is_Some (notesOf p !! k) -> In k (readyOf p).

(** The words of the session as the call at event [e] computes them. *)
Definition sessionWordsAt (e : Event) (p : Plugin) : Z :=
  Z.max 0 (getTotalBlogWords (ev_host e) (arrive e p) - sessionStartWordCount p).

(** ** The two word counts, as sums *)

Definition sumZ (l : list Z) : Z := fold_right Z.add 0 l.

(** A snapshot entry counts when its path names a file of the vault
    whose modification time is within today. *)
Definition modifiedTodayInVault (h : Host) (sf : DispatchStatusFile) : bool :=
  match getAbstractFileByPath h (sf_path sf) with
  | Some (File vaultFile) => modifiedToday h vaultFile
  | _ => false
  end.

Definition snapshotWordsToday (h : Host) (s : DispatchStatus) : Z :=
  sumZ (map sf_word_count (List.filter (modifiedTodayInVault h) (files s))).

(** Ten words for every line of a paragraph or heading section. *)
Definition sectionEstimate (s : SectionCache) : Z :=
  (position_end_line s - position_start_line s + 1) * 10.

Definition fileEstimate (f : TFile) : Z :=
  match fileCache f with
  | Some c =>
      match sections c with
      | Some ss => sumZ (map sectionEstimate (List.filter countedSection ss))
      | None => 0
      end
  | None => 0
  end.

Definition lineSpanEstimate (h : Host) (p : Plugin) : Z :=
  sumZ (map fileEstimate (List.filter (modifiedToday h) (blogFiles h p))).

(** ** The streak loop on days

    [parse_date] turns the list of texts into a list of days, on which
    the loop of [getWritingStreak] is [walk]. *)

Definition date_lt (a b : Date) : Prop :=
  year a < year b
  \/ (year a = year b
      /\ (month a < month b \/ (month a = month b /\ day a < day b))).

Definition date_le (a b : Date) : Prop := date_lt a b \/ a = b.

(** The day that a text names; the first day of the calendar for a text
    that names none. *)
Definition dayOf (s : string) : Date :=
  match parse_date s with
  | Some d => d
  | None => mkDate 0 1 1
  end.

Fixpoint walk (expected : Date) (streak : Z) (l : list Date) : Z :=
  match l with
  | [] => streak
  | date :: rest =>
      if isSame date expected
      then walk (subtractDay expected) (streak + 1) rest
      else if isBefore date expected then streak
      else walk expected streak rest
  end.

(** The numbers that [digit] shows. *)
Definition digits : list Z := [0; 1; 2; 3; 4; 5; 6; 7; 8; 9].

(** * Values for examples *)

(** The plugin object as the class constructs it. *)
Definition initialPlugin (s : DispatchSettings) : Plugin :=
  mkPlugin s None None 0 "" 0 0 0 (mkStreak [] []).

Definition exSettings : DispatchSettings := mkSettings "blog" true true.

(** 2024-06-10, 06:13:20 UTC, on a host whose local time is UTC. *)
Definition exClock : Clock :=
  mkClock 1718000000000 "2024-06-10T06:13:20.000Z" (mkDate 2024 6 10)
          1717977600000 1718063999999.

Definition exPost : TFile :=
  mkTFile "blog/2024/a.md" "a.md" "md" 1718000000000 2000 None
          (Some (mkCache (Some [mkSection "paragraph" 4 4]) false)).

Definition exHost : Host := mkHost [Folder "blog"; File exPost] exClock.

(** The host of the examples three days earlier, on 2024-06-07. *)
Definition exHostEarlier : Host :=
  mkHost (vault exHost)
         (mkClock 1717740800000 "2024-06-07T06:13:20.000Z" (mkDate 2024 6 7)
                  1717718400000 1717804799999).

(** The queue of the design document's scenario. *)
Definition exQueue : DispatchQueue :=
  mkQueue "2024-06-10T06:00:00.000Z" ["blog/2024/a.md"]
          {["blog/2024/a.md" := "final pass"]}.

(** A plugin that holds that queue. *)
Definition exQueued : Plugin :=
  set_dispatchQueue (Some exQueue) (initialPlugin exSettings).

(** A queue file in which another writer has named the post twice. *)
Definition exQueueTwice : DispatchQueue :=
  mkQueue "2024-06-10T06:00:00.000Z" ["blog/2024/a.md"; "blog/2024/a.md"] ∅.

(** A reading of [new Date(s).getTime()] for examples: the UTC shape
    "YYYY-MM-DDTHH:MM:SS.mmmZ" that [toISOString] writes, and NaN for
    every other text. *)
Definition daysFromCivil (d : Date) : Z :=
  let y := if month d <=? 2 then year d - 1 else year d in
  let era := y / 400 in
  let yoe := y - era * 400 in
  let doy := (153 * ((month d + 9) mod 12) + 2) / 5 + day d - 1 in
  let doe := yoe * 365 + yoe / 4 - yoe / 100 + doy in
  era * 146097 + doe - 719468.

Definition timeOfDay (s : string) : option Z :=
  match s with
  | String t (String h1 (String h0 (String c1 (String m1 (String m0 (String c2
      (String s1 (String s0 (String dot (String f2 (String f1 (String f0
      (String z EmptyString))))))))))))) =>
      if (Ascii.eqb t "T" && Ascii.eqb c1 ":" && Ascii.eqb c2 ":"
          && Ascii.eqb dot "." && Ascii.eqb z "Z")%char then
        match two_digits h1 h0, two_digits m1 m0, two_digits s1 s0,
              digit_val f2, two_digits f1 f0 with
        | Some hh, Some mm, Some ss, Some f, Some ff =>
            Some (((hh * 60 + mm) * 60 + ss) * 1000 + 100 * f + ff)
        | _, _, _, _, _ => None
        end
      else None
  | _ => None
  end.

Definition isoTime (s : string) : option Z :=
  match parse_date (substring 0 10 s), timeOfDay (substring 10 14 s) with
  | Some d, Some ms => Some (daysFromCivil d * 86400000 + ms)
  | _, _ => None
  end.

(** A stand-in for [JSON.parse] in examples: it reads the one text
    [text] as the snapshot [s] and throws on every other text. *)
Definition parseOnly (text : string) (s : DispatchStatus) (content : string)
    : option DispatchStatus :=
  if String.eqb content text then Some s else None.

(** Weeks for examples: a week is the seven days that end on the day
    given, named by that day. *)
Definition exStartOfWeek (d : Date) : Date := d.
Definition exFormatWeek (d : Date) : string := format_date d.

Definition exStats : DispatchStats := mkStats 10 3 7 15000.

(** A snapshot written at [updated], with [published] as the latest
    publish. *)
Definition exStatus (updated : string) (published : option string) : DispatchStatus :=
  mkStatus updated published
    [mkStatusFile "blog/2024/a.md" "a" (Some "A") None [] 420 true false false
                  1718000000000]
    exStats.

Definition exStatusFile : TFile :=
  mkTFile ".dispatch/status.json" "status.json" "json" 1718000000000 300
          (Some "status file text") None.

(** A vault with a status file next to the post. *)
Definition exHostWithStatus : Host :=
  mkHost [Folder "blog"; File exPost; Folder ".dispatch"; File exStatusFile] exClock.

(** A plugin that holds a snapshot whose latest publish is "old-post",
    and a snapshot that a later scan would write. *)
Definition exHolding (s : DispatchSettings) : Plugin :=
  set_dispatchStatus (Some (exStatus "2024-06-10T06:00:00.000Z" (Some "old-post")))
                     (initialPlugin s).

Definition exNewStatus (published : option string) : DispatchStatus :=
  exStatus "2024-06-10T06:13:00.000Z" published.

(** The refresh of the examples: the status file of [exHostWithStatus]
    reads as [exNewStatus published]. *)
Definition exRefresh (published : option string) (p : Plugin) : Plugin * list Effect :=
  loadDispatchStatus (parseOnly "status file text" (exNewStatus published))
                     exStartOfWeek exFormatWeek exHostWithStatus p.

(** A plugin that holds a snapshot written thirteen minutes ago. *)
Definition exStale : Plugin :=
  set_dispatchStatus (Some (exStatus "2024-06-10T06:00:00.000Z" None))
                     (initialPlugin exSettings).

(** A plugin that counted the day's words before any snapshot was read,
    and then read one written a minute ago. *)
Definition exCounted : Plugin :=
  set_dispatchStatus (Some (exStatus "2024-06-10T06:12:20.000Z" None))
                     (fst (getDailyWordCount exHost (initialPlugin exSettings))).

(** A modification event at which the snapshot held reports [words]
    words in all. *)
Definition exEvent (words : Z) : Event :=
  mkEvent exHost exSettings
          (Some (mkStatus "2024-06-10T06:13:00.000Z" None [] (mkStats 10 3 7 words))).

(** A session in which 100 and 250 words have been celebrated. *)
Definition exMidSession : Plugin :=
  fst (session [exEvent 120; exEvent 300] (initialPlugin exSettings)).

(** A week of writing days that ends today, after a gap, and a day
    written ahead. *)
Definition exDates : list string :=
  ["2024-05-30"; "2024-06-08"; "2024-06-10"; "2024-06-09"; "2024-06-11";
   "2024-06-06"].

Definition exWriter : Plugin :=
  set_streakData (mkStreak exDates []) (initialPlugin exSettings).

(** * The rest of the engine *)

(** ** Loading the queue *)

Section QueueFile.

(** [JSON.parse(content) as DispatchQueue]: [None] when the parse
    throws. *)
Variable JSON_parse_queue : string -> option DispatchQueue.

Definition loadDispatchQueue (h : Host) (p : Plugin) : Plugin :=
  match getAbstractFileByPath h queuePath with
  | Some (File file) =>
      match data file with
      | Some content =>
          match JSON_parse_queue content with
          | Some q => set_dispatchQueue (Some q) p
          | None => set_dispatchQueue (Some (freshQueue h)) p
          end
      | None => set_dispatchQueue (Some (freshQueue h)) p
      end
  | _ => set_dispatchQueue (Some (freshQueue h)) p
  end.

End QueueFile.

(** ** Looking a file up in the snapshot *)

Definition getDispatchFileInfo (p : Plugin) (filePath : string)
    : option DispatchStatusFile :=
  match dispatchStatus p with
  | None => None
  | Some s => List.find (fun f => String.eqb (sf_path f) filePath) (files s)
  end.

(** A queue file on disk, for examples. *)
Definition exQueueFile : TFile :=
  mkTFile ".dispatch/queue.json" "queue.json" "json" 1718000000000 120
          (Some "queue file text") None.

Definition exHostWithQueue : Host :=
  mkHost [Folder "blog"; File exPost; Folder ".dispatch"; File exQueueFile] exClock.

(** ** The list of days after a record

    What [recordWritingDay] and [recordPublishDay] make of the list
    they work on, [day] being the text of today. *)

Definition recorded (day : string) (l : list string) : list string :=
  if includes day l then l
  else if (365 <? length (l ++ [day]))%nat then sliceLast 365 (l ++ [day])
       else l ++ [day].

(** The 365 days before the day of [exClock], oldest first. *)
Definition exLongHistory : list string :=
  map (fun n => format_date (daysBack n (mkDate 2024 6 10))) (rev (seq 1 365)).

Definition exVeteran : Plugin :=
  set_streakData (mkStreak exLongHistory exLongHistory) (initialPlugin exSettings).

(** ** Milestones: the next one, and how many are left *)

(** The lowest milestone above the last one celebrated. *)
Definition nextMilestone (last : Z) : option Z :=
  List.find (fun m => last <? m) milestones.

(** The milestones still above [last]. *)
Definition milestonesLeft (last : Z) : nat :=
  length (List.filter (fun m => last <? m) milestones).

Definition fired (c : option Z) : bool :=
  match c with Some _ => true | None => false end.

(** ** Counting drafts and published posts

    The loop that [updateStatusBar] and the panel share, and the choice
    between its counts and those of a fresh snapshot. *)

(** [fm?.["published_url"]], as a condition. *)
Definition hasPublishedUrl (f : TFile) : bool :=
  match fileCache f with
  | Some c => frontmatter_published_url c
  | None => false
  end.

(** The pair is [(published, drafts)]. *)
Definition countLoop (fs : list TFile) : Z * Z :=
  fold_left (fun '(published, drafts) file =>
               if hasPublishedUrl file then (published + 1, drafts)
               else (published, drafts + 1)) fs (0, 0).

Record Overview := mkOverview {
  ov_drafts : Z;
  ov_published : Z;
  ov_totalWords : Z
}.

Section Overview.

Variable Date_getTime : string -> option Z.

Definition overviewCounts (h : Host) (p : Plugin) : Overview :=
  match dispatchStatus p with
  | Some s =>
      if isDispatchFresh Date_getTime h p
      then mkOverview (stats_drafts (stats s)) (stats_published (stats s))
                      (stats_total_words (stats s))
      else let '(published, drafts) := countLoop (blogFiles h p) in
           mkOverview drafts published 0
  | None =>
      let '(published, drafts) := countLoop (blogFiles h p) in
      mkOverview drafts published 0
  end.

End Overview.

(** What a call writes on the status bar. *)
Inductive BarEffect :=
| SetText (text : string)
| SetAttribute (attribute value : string).

(** [updateStatusBar] of the first version of the plugin (the second
    class of main.ts); [statusBarEl] says whether the bar exists. *)
Definition updateStatusBar_first (statusBarEl : bool) (h : Host) (p : Plugin)
    : list BarEffect :=
  if negb statusBarEl then []
  else
    let files := blogFiles h p in
    if (length files =? 0)%nat then [SetText ""]
    else
      let '(published, drafts) := countLoop files in
      [SetText (pretty drafts +:+ " drafts · " +:+ pretty published +:+ " live");
       SetAttribute "aria-label"
         ("Dispatch: " +:+ pretty drafts +:+ " unpublished drafts, "
          +:+ pretty published +:+ " published posts")].

(** The vault of the design document's scenario: five posts, two of
    them published. *)
Definition exPostNamed (n : string) (published : bool) : TFile :=
  mkTFile ("blog/2024/" +:+ n +:+ ".md") (n +:+ ".md") "md" 1718000000000 1000 None
          (Some (mkCache None published)).

Definition exFivePosts : Host :=
  mkHost [Folder "blog"; File (exPostNamed "a" false); File (exPostNamed "b" true);
          File (exPostNamed "c" false); File (exPostNamed "d" true);
          File (exPostNamed "e" false);
          File (mkTFile "notes/x.md" "x.md" "md" 1718000000000 10 None None)]
         exClock.

(** ** What a poll finds *)

Section StatusFile.

Variable JSON_parse : string -> option DispatchStatus.

(** The host shows a status file that reads as the snapshot [s]. *)
Definition reads (h : Host) (s : DispatchStatus) : Prop :=
  exists file content,
    getAbstractFileByPath h statusPath = Some (File file)
    /\ data file = Some content
    /\ JSON_parse content = Some s.

(** The host shows a status file that cannot be read or parsed. *)
Definition garbled (h : Host) : Prop :=
  exists file,
    getAbstractFileByPath h statusPath = Some (File file)
    /\ match data file with
       | Some content => JSON_parse content = None
       | None => True
       end.

End StatusFile.

(** A vault whose status file was caught half written. *)
Definition exHostGarbled : Host :=
  mkHost [Folder "blog"; File exPost; Folder ".dispatch";
          File (mkTFile ".dispatch/status.json" "status.json" "json" 1718000000000
                        12 (Some "{ half a fi") None)]
         exClock.

(** ** Front matter

    The object that [processFrontMatter] hands to its callback, and
    that the metadata cache shows as [cache.frontmatter]: a map from
    keys to the values that posts carry.  The keys that the plugin
    passes are "unlisted", "password" and "draft". *)

Inductive FMValue :=
| FMNull
| FMBool (b : bool)
| FMInt (n : Z)
| FMString (s : string)
| FMList (items : list string).

(** The condition [if (v)], [v] being a value or absent. *)
Definition fmTruthy (v : option FMValue) : bool :=
  match v with
  | Some (FMBool b) => b
  | Some (FMInt n) => negb (n =? 0)
  | Some (FMString s) => negb (String.eqb s "")
  | Some (FMList _) => true
  | Some FMNull => false
  | None => false
  end.

(** The text of a value inside a template string. *)
Definition fmText (v : FMValue) : string :=
  match v with
  | FMNull => "null"
  | FMBool true => "true"
  | FMBool false => "false"
  | FMInt n => pretty n
  | FMString s => s
  | FMList items => String.concat "," items
  end.

Definition toggleFrontmatter (key : string) (fm : gmap string FMValue)
    : gmap string FMValue * list Effect :=
  if fmTruthy (fm !! key)
  then (delete key fm, [Notice ("Removed " +:+ key)])
  else (<[key := FMBool true]> fm, [Notice ("Set " +:+ key +:+ ": true")]).

Definition removeFrontmatterKey (key : string) (fm : gmap string FMValue)
    : gmap string FMValue * list Effect :=
  match fm !! key with
  | Some _ => (delete key fm, [Notice ("Removed " +:+ key +:+ " from frontmatter")])
  | None => (fm, [Notice ("No " +:+ key +:+ " field found")])
  end.

(** [promptPassword], from the answer of the modal on: [None] when the
    modal is dismissed. *)
Definition promptPassword (password : option string) (fm : gmap string FMValue)
    : gmap string FMValue * list Effect :=
  match password with
  | Some pw =>
      if String.eqb pw "" then (fm, [])
      else (<["unlisted" := FMBool true]> (<["password" := FMString pw]> fm),
            [Notice "Password set (implies unlisted)"])
  | None => (fm, [])
  end.

(** [fm?.[key]], [fm] being [cache?.frontmatter]. *)
Definition fmGet (fm : option (gmap string FMValue)) (key : string)
    : option FMValue :=
  match fm with
  | Some m => m !! key
  | None => None
  end.

Section PublishStatus.

(** [Number.prototype.toLocaleString]. *)
Variable toLocaleString : Z -> string.

(** The lines of the notice of [showPublishStatus], for a file whose
    front matter is [fm]. *)
Definition publishStatusLines (p : Plugin) (file : TFile)
    (fm : option (gmap string FMValue)) : list string :=
  let dispatchInfo := getDispatchFileInfo p (path file) in
  let publishedUrl :=
    match dispatchInfo with
    | Some info =>
        match sf_published_url info with
        | Some url => Some (FMString url)
        | None => fmGet fm "published_url"
        end
    | None => fmGet fm "published_url"
    end in
  let lines :=
    match publishedUrl with
    | Some v => if fmTruthy publishedUrl then ["Published: " +:+ fmText v]
                else ["Not published"]
    | None => ["Not published"]
    end in
  let lines :=
    if fmTruthy (fmGet fm "password")
       || match dispatchInfo with Some info => sf_has_password info | None => false end
    then lines ++ ["Protected (password required)"]
    else if fmTruthy (fmGet fm "unlisted")
            || match dispatchInfo with Some info => sf_unlisted info | None => false end
    then lines ++ ["Unlisted (link only)"]
    else lines ++ ["Public (will appear in listings)"] in
  let lines :=
    match dispatchInfo with
    | Some info => if negb (sf_is_safe info)
                   then lines ++ ["Not safe to publish (Dispatch flagged issues)"]
                   else lines
    | None => lines
    end in
  let lines :=
    match dispatchInfo with
    | Some info =>
        if (0 <? length (sf_warnings info))%nat
        then lines ++ ["Warnings:"] ++ map (fun w => "  • " +:+ w) (sf_warnings info)
        else lines
    | None => lines
    end in
  let lines :=
    if fmTruthy (fmGet fm "draft")
    then lines ++ ["Has legacy draft: true (run 'Remove legacy draft: true' to clean up)"]
    else lines in
  let lines :=
    if negb (fmTruthy (fmGet fm "date"))
    then lines ++ ["Missing date (Dispatch will warn)"]
    else lines in
  let lines :=
    match dispatchInfo with
    | Some info => lines ++ ["Word count: " +:+ toLocaleString (sf_word_count info)]
    | None => lines
    end in
  if isFileReady p (path file) then lines ++ ["Marked ready to publish"] else lines.

Definition showPublishStatus (p : Plugin) (file : TFile)
    (fm : option (gmap string FMValue)) : list Effect :=
  [Notice (String.concat newline (publishStatusLines p file fm))].

End PublishStatus.

(** The three lines on the visibility of a post. *)
Definition visibilityLines : list string :=
  ["Protected (password required)"; "Unlisted (link only)";
   "Public (will appear in listings)"].

(** The front matter of a new public post. *)
Definition exFrontmatter : gmap string FMValue :=
  {["date" := FMString "2024-06-10T06:13:20+00:00"; "tags" := FMList []]}.

(** ** Creating a post *)

Inductive Visibility := Public | Unlisted | Protected.

Record PostOptions := mkOptions {
  opt_title : string;
  opt_slug : string;
  opt_visibility : Visibility;
  opt_password : string;
  opt_tags : list string
}.

(** The two settings that only the template of a new post reads. *)
Record TemplateSettings := mkTemplate {
  dateFormat : string;
  customFrontmatter : string
}.

(** What [createBlogPostFromModal] does outside the plugin object;
    [PostStreak] is an effect of the [recordWritingDay] it ends with. *)
Inductive PostEffect :=
| PostNotice (message : string)
| PostCreateFolder (folderPath : string)
| PostCreate (filePath content : string)
| PostOpenFile (filePath : string)
| PostCursorToLastLine
| PostStreak (e : Effect).

Definition quote : string := String (ascii_of_nat 34) "".

(** [s.split("\n")]. *)
Fixpoint splitLines (s : string) : list string :=
  match s with
  | EmptyString => [""]
  | String c rest =>
      if Ascii.eqb c (ascii_of_nat 10) then "" :: splitLines rest
      else match splitLines rest with
           | line :: lines => String c line :: lines
           | [] => [String c ""]
           end
  end.

Section NewPost.

(** [moment().format(f)] at the time of the call, and
    [String.prototype.trim]. *)
Variable moment_format : Clock -> string -> string.
Variable trim : string -> string.

Definition postFolder (h : Host) (p : Plugin) : string :=
  blogFolder (settings p) +:+ "/" +:+ moment_format (clock h) "YYYY".

Definition postPath (h : Host) (p : Plugin) (opts : PostOptions) : string :=
  postFolder h p +:+ "/" +:+ opt_slug opts +:+ ".md".

(** The array [fmLines]. *)
Definition frontmatterLines (h : Host) (t : TemplateSettings) (opts : PostOptions)
    : list string :=
  let fmLines := ["date: " +:+ moment_format (clock h) (dateFormat t)] in
  let fmLines :=
    if (0 <? length (opt_tags opts))%nat
    then fmLines ++ ["tags: ["
                     +:+ String.concat ", "
                           (map (fun tag => quote +:+ trim tag +:+ quote) (opt_tags opts))
                     +:+ "]"]
    else fmLines ++ ["tags: []"] in
  let fmLines :=
    match opt_visibility opts with
    | Unlisted | Protected => fmLines ++ ["unlisted: true"]
    | Public => fmLines
    end in
  let fmLines :=
    match opt_visibility opts with
    | Protected =>
        if String.eqb (opt_password opts) "" then fmLines
        else fmLines ++ ["password: " +:+ quote +:+ opt_password opts +:+ quote]
    | _ => fmLines
    end in
  if String.eqb (trim (customFrontmatter t)) "" then fmLines
  else fmLines ++ List.filter (fun l => negb (String.eqb (trim l) ""))
                              (splitLines (customFrontmatter t)).

Definition postContent (h : Host) (t : TemplateSettings) (opts : PostOptions)
    : string :=
  "---" +:+ newline +:+ String.concat newline (frontmatterLines h t opts)
  +:+ newline +:+ "---" +:+ newline +:+ newline +:+ "# " +:+ opt_title opts
  +:+ newline +:+ newline.

(** [activeView] says whether the workspace shows a Markdown view once
    the new file is open. *)
Definition createBlogPostFromModal (t : TemplateSettings) (activeView : bool)
    (h : Host) (opts : PostOptions) (p : Plugin) : Plugin * list PostEffect :=
  let filePath := postPath h p opts in
  match getAbstractFileByPath h filePath with
  | Some _ => (p, [PostNotice ("File already exists: " +:+ filePath)])
  | None =>
      let mkdir := match getAbstractFileByPath h (postFolder h p) with
                   | None => [PostCreateFolder (postFolder h p)]
                   | Some _ => []
                   end in
      let cursor := if activeView then [PostCursorToLastLine] else [] in
      let '(p', saved) := if enableStreaks (settings p) then recordWritingDay h p
                          else (p, []) in
      (p', mkdir ++ [PostCreate filePath (postContent h t opts); PostOpenFile filePath]
           ++ cursor ++ [PostNotice ("Created " +:+ opt_slug opts)]
           ++ map PostStreak saved)
  end.

End NewPost.

(** Formats and trimming for examples: the year and the ISO time of
    [exClock], and no white space to trim. *)
Definition exMomentFormat (c : Clock) (f : string) : string :=
  if String.eqb f "YYYY" then "2024" else "2024-06-10T06:13:20+00:00".

Definition exTemplate : TemplateSettings := mkTemplate "YYYY-MM-DDTHH:mm:ssZ" "".

Definition exOptions (slug : string) : PostOptions :=
  mkOptions "A new day" slug Protected "s3cret" ["life"; "notes"].

(** ** The form of a new post

    The texts of the form are looked into, so they are sequences of
    code units, as for [slugify]. *)

(** The code units that [String.prototype.trim] removes: white space
    and line terminators. *)
Definition isWhiteSpace (c : N) : bool :=
  ((9 <=? c) && (c <=? 13) || (c =? 32) || (c =? 160) || (c =? 5760)
   || (8192 <=? c) && (c <=? 8202) || (c =? 8232) || (c =? 8233)
   || (c =? 8239) || (c =? 8287) || (c =? 12288) || (c =? 65279))%N.

Fixpoint trimStart (s : JSString) : JSString :=
  match s with
  | c :: rest => if isWhiteSpace c then trimStart rest else s
  | [] => []
  end.

Definition trimEnd (s : JSString) : JSString := rev (trimStart (rev s)).

Definition trim (s : JSString) : JSString := trimEnd (trimStart s).

Definition comma : N := 44%N.

(** [s.split(sep)] for a separator of one code unit. *)
Fixpoint splitOn (sep : N) (s : JSString) : list JSString :=
  match s with
  | [] => [[]]
  | c :: rest =>
      if (c =? sep)%N then [] :: splitOn sep rest
      else match splitOn sep rest with
           | piece :: pieces => (c :: piece) :: pieces
           | [] => [[c]]
           end
  end.

(** [t.length > 0]; also the condition [if (t)] on a string. *)
Definition nonEmpty (s : JSString) : bool :=
  match s with
  | [] => false
  | _ :: _ => true
  end.

(** The fields of the form; [None] for an input element that is
    missing. *)
Record NewPostForm := mkForm {
  titleInput : option JSString;
  slugInput : option JSString;
  tagsInput : option JSString;
  passwordInput : option JSString;
  visibility : Visibility
}.

(** What [submit] hands to [createBlogPostFromModal]. *)
Record PostRequest := mkRequest {
  req_title : JSString;
  req_slug : JSString;
  req_visibility : Visibility;
  req_password : JSString;
  req_tags : list JSString
}.

Inductive Submitted :=
| TitleRequired
| Requested (r : PostRequest).

(** [input?.value?.trim()], with the missing input and the empty text
    both giving nothing. *)
Definition trimmedValue (input : option JSString) : option JSString :=
  match input with
  | Some v => if nonEmpty (trim v) then Some (trim v) else None
  | None => None
  end.

Definition tagsOf (input : option JSString) : list JSString :=
  List.filter nonEmpty
    (map trim (splitOn comma (match input with Some v => v | None => [] end))).

Section Submit.

Variable toLowerCase : JSString -> JSString.

(** [submit], up to its call of [createBlogPostFromModal]: either the
    notice "Title is required" or the request made. *)
Definition submit (form : NewPostForm) : Submitted :=
  match trimmedValue (titleInput form) with
  | None => TitleRequired
  | Some title =>
      Requested
        (mkRequest title
           (match trimmedValue (slugInput form) with
            | Some slug => slug
            | None => slugify toLowerCase title
            end)
           (visibility form)
           (match trimmedValue (passwordInput form) with
            | Some password => password
            | None => []
            end)
           (tagsOf (tagsInput form)))
  end.

End Submit.

(** A text with no white space at either end. *)
Definition headWhite (s : JSString) : bool :=
  match s with
  | c :: _ => isWhiteSpace c
  | [] => false
  end.

Definition trimmed (s : JSString) : bool :=
  negb (headWhite s) && negb (headWhite (rev s)).

(** A tag as [tagsOf] gives them: not empty, trimmed, without comma. *)
Definition goodTag (t : JSString) : bool :=
  nonEmpty t && trimmed t && forallb (fun c => negb (c =? comma)%N) t.

(** [ts.join(", ")]. *)
Fixpoint joinTags (ts : list JSString) : JSString :=
  match ts with
  | [] => []
  | [t] => t
  | t :: rest => t ++ comma :: 32%N :: joinTags rest
  end.

(** ** The streak notice *)

(** The [for] loop of the graph counts [i] down from 6 to 0. *)
Definition graphDays : list nat := [6; 5; 4; 3; 2; 1; 0]%nat.

Definition block (written : bool) : string :=
  if written then "█" else "░".

(** The cells of the graph, oldest day first: whether the day [i] days
    back is among the recorded writing days. *)
Definition last7 (h : Host) (p : Plugin) : list bool :=
  map (fun i => includes (format_date (daysBack i (today (clock h))))
                  (dates (streakData p)))
      graphDays.

Section StreakNotice.

Variable startOfWeek : Date -> Date.
Variable format_week : Date -> string.

Definition streakLines (h : Host) (p : Plugin) : list string :=
  let writingStreak := getWritingStreak h p in
  let publishStreak := getPublishStreak startOfWeek format_week h p in
  let totalDays := Z.of_nat (length (dates (streakData p))) in
  let totalPublishes := Z.of_nat (length (publishDates (streakData p))) in
  let lines :=
    if 0 <? writingStreak
    then ["Writing streak: " +:+ pretty writingStreak +:+ " day"
          +:+ (if writingStreak =? 1 then "" else "s")]
    else ["Start a writing streak today."] in
  let lines :=
    if 0 <? publishStreak
    then lines ++ ["Publish streak: " +:+ pretty publishStreak +:+ " week"
                   +:+ (if publishStreak =? 1 then "" else "s")]
    else lines in
  let lines :=
    lines ++ [pretty totalDays +:+ " writing days · " +:+ pretty totalPublishes
              +:+ " publish days recorded"] in
  lines ++ ["Last 7 days: " +:+ String.concat "" (map block (last7 h p))].

Definition showStreakNotice (h : Host) (p : Plugin) : list Effect :=
  [Notice (String.concat newline (streakLines h p))].

End StreakNotice.

(** * Properties *)

(** ** Publish queue *)

(** Marking a post in a vault that has no [.dispatch] folder yet. *)
Example markReady_first_post :
  snd (markReady exHost exPost None (initialPlugin exSettings)) =
  [CreateFolder ".dispatch";
   VaultCreate queuePath
     (mkQueue (nowISO exClock) ["blog/2024/a.md"]
              (<["blog/2024/a.md" := "Ready for review"]> ∅));
   Notice "Marked ready to publish: a.md"].
Proof. reflexivity. Qed.

Lemma includes_In x l : includes x l = true <-> In x l.
Proof.
  unfold includes. rewrite existsb_exists. split.
  - intros (y & Hy & E). apply String.eqb_eq in E. now subst.
  - intros H. exists x. split; [assumption | apply String.eqb_refl].
Qed.

Lemma includes_false x l : includes x l = false <-> ~ In x l.
Proof.
  rewrite <- includes_In. destruct (includes x l); split; congruence.
Qed.

Lemma saveDispatchQueue_ready h p :
  readyOf (fst (saveDispatchQueue h p)) = readyOf p.
Proof.
  unfold saveDispatchQueue, readyOf.
  destruct (dispatchQueue p) as [q|] eqn:E; simpl; [reflexivity | now rewrite E].
Qed.

Lemma saveDispatchQueue_notes h p :
  notesOf (fst (saveDispatchQueue h p)) = notesOf p.
Proof.
  unfold saveDispatchQueue, notesOf.
  destruct (dispatchQueue p) as [q|] eqn:E; simpl; [reflexivity | now rewrite E].
Qed.

Lemma markReady_ready h file note p :
  readyOf (fst (markReady h file note p)) =
  if includes (path file) (readyOf p) then readyOf p
  else readyOf p ++ [path file].
Proof.
  unfold markReady, readyOf at 2 3 4.
  destruct (dispatchQueue p) as [q|]; [|reflexivity].
  cbn [ready]. destruct (includes (path file) (ready q)); reflexivity.
Qed.

Lemma markReady_notes h file note p :
  notesOf (fst (markReady h file note p)) =
  <[path file := noteOrDefault note]> (notesOf p).
Proof.
  unfold markReady, notesOf at 2.
  destruct (dispatchQueue p) as [q|]; reflexivity.
Qed.

Lemma unmarkReady_ready h file p :
  readyOf (fst (unmarkReady h file p)) =
  List.filter (fun x => negb (String.eqb x (path file))) (readyOf p).
Proof.
  unfold unmarkReady, readyOf at 2.
  destruct (dispatchQueue p) as [q|] eqn:E; simpl; [reflexivity|].
  unfold readyOf. now rewrite E.
Qed.

Lemma unmarkReady_notes h file p :
  notesOf (fst (unmarkReady h file p)) = delete (path file) (notesOf p).
Proof.
  unfold unmarkReady, notesOf at 2.
  destruct (dispatchQueue p) as [q|] eqn:E; simpl; [reflexivity|].
  unfold notesOf. rewrite E. now rewrite delete_empty.
Qed.

Lemma filter_out_absent (x : string) l :
  ~ In x l -> List.filter (fun y => negb (String.eqb y x)) l = l.
Proof.
  induction l as [|a l IH]; simpl; intros H; [reflexivity|].
  destruct (String.eqb_spec a x) as [->|Hne]; simpl.
  - exfalso. apply H. now left.
  - f_equal. apply IH. intros Hin. apply H. now right.
Qed.

Lemma filter_out_app (x : string) l :
  List.filter (fun y => negb (String.eqb y x)) (l ++ [x]) =
  List.filter (fun y => negb (String.eqb y x)) l.
Proof.
  rewrite List.filter_app. simpl. rewrite String.eqb_refl. simpl.
  apply app_nil_r.
Qed.

(** C3, as amended: for a path that is not in [ready] and has no note,
    [markReady] followed by [unmarkReady] leaves [ready] and [notes] as
    they were before the two calls. *)
Theorem markReady_unmarkReady_roundtrip h h' file note p :
  ~ In (path file) (readyOf p) ->
  notesOf p !! path file = None ->
  readyOf (fst (unmarkReady h' file (fst (markReady h file note p)))) = readyOf p
  /\ notesOf (fst (unmarkReady h' file (fst (markReady h file note p)))) = notesOf p.
Proof.
  intros Hready Hnote. split.
  - rewrite unmarkReady_ready, markReady_ready.
    apply includes_false in Hready as Hinc. rewrite Hinc.
    rewrite filter_out_app. now apply filter_out_absent.
  - rewrite unmarkReady_notes, markReady_notes.
    rewrite delete_insert_eq. now apply delete_id.
Qed.

Lemma markReady_unmarkReady_roundtrip_witness :
  readyOf (fst (unmarkReady exHost exPost
                  (fst (markReady exHost exPost None (initialPlugin exSettings)))))
  = readyOf (initialPlugin exSettings)
  /\ notesOf (fst (unmarkReady exHost exPost
                  (fst (markReady exHost exPost None (initialPlugin exSettings)))))
  = notesOf (initialPlugin exSettings).
Proof.
  apply (markReady_unmarkReady_roundtrip exHost exHost exPost None
           (initialPlugin exSettings)).
  - simpl. tauto.
  - reflexivity.
Defined.

(** C3 fails as stated: a path that is ready already, with its note, is
    gone from both after the two calls. *)
Lemma markReady_unmarkReady_drops_ready_path :
  readyOf exQueued = ["blog/2024/a.md"]
  /\ readyOf (fst (unmarkReady exHost exPost
                     (fst (markReady exHost exPost None exQueued)))) = []
  /\ notesOf exQueued !! "blog/2024/a.md" = Some "final pass"
  /\ notesOf (fst (unmarkReady exHost exPost
                     (fst (markReady exHost exPost None exQueued))))
       !! "blog/2024/a.md" = None.
Proof.
  split; [reflexivity|]. split; [reflexivity|].
  split; [reflexivity|]. rewrite unmarkReady_notes. apply lookup_delete_eq.
Qed.

Lemma count_occ_snoc (l : list string) x y :
  count_occ string_dec (l ++ [y]) x =
  (count_occ string_dec l x + if string_dec y x then 1 else 0)%nat.
Proof.
  rewrite count_occ_app. simpl. destruct (string_dec y x); reflexivity.
Qed.

Lemma markReady_count h file note p :
  count_occ string_dec (readyOf (fst (markReady h file note p))) (path file) =
  Nat.max 1 (count_occ string_dec (readyOf p) (path file)).
Proof.
  rewrite markReady_ready.
  destruct (includes (path file) (readyOf p)) eqn:E.
  - apply includes_In in E.
    apply (count_occ_In string_dec) in E. lia.
  - apply includes_false in E.
    apply (count_occ_not_In string_dec) in E.
    rewrite count_occ_snoc, E.
    destruct (string_dec (path file) (path file)); [reflexivity | congruence].
Qed.

(** C8, as amended: when [ready] holds the path at most once, two calls
    of [markReady] on it leave it exactly once in [ready], with the note
    of the second call when that note is not the empty string; a call
    with no note stores "Ready for review". *)
Theorem markReady_twice_last_note_wins h1 h2 file note1 (note2 : string) p :
  (count_occ string_dec (readyOf p) (path file) <= 1)%nat ->
  note2 <> "" ->
  (count_occ string_dec
     (readyOf (fst (markReady h2 file (Some note2) (fst (markReady h1 file note1 p)))))
     (path file) = 1%nat
   /\ notesOf (fst (markReady h2 file (Some note2) (fst (markReady h1 file note1 p))))
        !! path file = Some note2)
  /\ notesOf (fst (markReady h1 file None p)) !! path file = Some "Ready for review".
Proof.
  intros Hcount Hnote. repeat split.
  - rewrite !markReady_count. lia.
  - rewrite markReady_notes, lookup_insert_eq. simpl.
    destruct (String.eqb_spec note2 ""); [contradiction | reflexivity].
  - rewrite markReady_notes, lookup_insert_eq. reflexivity.
Qed.

Lemma markReady_twice_last_note_wins_witness :
  (count_occ string_dec
     (readyOf (fst (markReady exHost exPost (Some "final pass")
                      (fst (markReady exHost exPost (Some "first pass")
                              (initialPlugin exSettings))))))
     (path exPost) = 1%nat
   /\ notesOf (fst (markReady exHost exPost (Some "final pass")
                      (fst (markReady exHost exPost (Some "first pass")
                              (initialPlugin exSettings)))))
        !! path exPost = Some "final pass")
  /\ notesOf (fst (markReady exHost exPost None (initialPlugin exSettings)))
       !! path exPost = Some "Ready for review".
Proof.
  apply (markReady_twice_last_note_wins exHost exHost exPost (Some "first pass")
           "final pass" (initialPlugin exSettings)).
  - simpl. lia.
  - discriminate.
Defined.

(** C8 fails as stated on a queue file whose [ready] names the path
    twice, where both entries stay, and on an empty second note, where
    the default text is stored. *)
Lemma markReady_twice_keeps_duplicates_and_defaults :
  readyOf (fst (markReady exHost exPost (Some "second")
                  (fst (markReady exHost exPost (Some "first")
                          (set_dispatchQueue (Some exQueueTwice)
                             (initialPlugin exSettings))))))
  = ["blog/2024/a.md"; "blog/2024/a.md"]
  /\ notesOf (fst (markReady exHost exPost (Some "")
                     (fst (markReady exHost exPost (Some "first")
                             (initialPlugin exSettings)))))
       !! "blog/2024/a.md" = Some "Ready for review".
Proof.
  split; [reflexivity|].
  rewrite markReady_notes. apply lookup_insert_eq.
Qed.

(** C10: [markReady] and [unmarkReady] both keep every key of [notes]
    inside [ready]. *)
Theorem notesWithinReady_preserved h file note p :
  notesWithinReady p ->
  notesWithinReady (fst (markReady h file note p))
  /\ notesWithinReady (fst (unmarkReady h file p)).
Proof.
  intros Hinv. split; intros k Hk.
  - rewrite markReady_notes in Hk. rewrite markReady_ready.
    assert (Hin : In k (readyOf p ++ [path file])).
    { apply in_or_app. destruct (decide (path file = k)) as [E|Hne].
      - right. now left.
      - left. apply Hinv. now rewrite lookup_insert_ne in Hk. }
    destruct (includes (path file) (readyOf p)) eqn:E; [|exact Hin].
    apply in_app_or in Hin as [Hin|[<-|[]]]; [exact Hin|].
    now apply includes_In.
  - rewrite unmarkReady_notes in Hk. rewrite unmarkReady_ready.
    destruct (decide (path file = k)) as [E|Hne].
    + subst k. rewrite lookup_delete_eq in Hk. now destruct Hk.
    + rewrite lookup_delete_ne in Hk by exact Hne.
      apply filter_In. split; [now apply Hinv|].
      destruct (String.eqb_spec k (path file)); [congruence | reflexivity].
Qed.

Lemma notesWithinReady_preserved_witness :
  notesWithinReady
    (fst (markReady exHost exPost None
            (set_dispatchQueue (Some exQueue) (initialPlugin exSettings))))
  /\ notesWithinReady
       (fst (unmarkReady exHost exPost
               (set_dispatchQueue (Some exQueue) (initialPlugin exSettings)))).
Proof.
  apply (notesWithinReady_preserved exHost exPost None
           (set_dispatchQueue (Some exQueue) (initialPlugin exSettings))).
  intros k Hk. simpl. left.
  destruct (decide ("blog/2024/a.md" = k)) as [E|Hne]; [exact E|].
  exfalso. unfold notesOf in Hk. simpl in Hk.
  rewrite lookup_singleton_ne in Hk by exact Hne. now destruct Hk.
Defined.

(** ** Status snapshot *)

Example isoTime_now : isoTime (nowISO exClock) = Some (now exClock).
Proof. reflexivity. Qed.

Section StatusProperties.

Variable JSON_parse : string -> option DispatchStatus.
Variable Date_getTime : string -> option Z.
Variable startOfWeek : Date -> Date.
Variable format_week : Date -> string.

Local Abbreviation load := (loadDispatchStatus JSON_parse startOfWeek format_week).
Local Abbreviation celebrate := (celebratePublish startOfWeek format_week).
Local Abbreviation fresh := (isDispatchFresh Date_getTime).

(** A status file that cannot be read or parsed clears the snapshot,
    held or not. *)
Lemma loadDispatchStatus_unreadable h p file :
  getAbstractFileByPath h statusPath = Some (File file) ->
  match data file with
  | Some content => JSON_parse content = None
  | None => True
  end ->
  dispatchStatus (fst (load h p)) = None
  /\ dispatchStatus (loadDispatchStatus_plain JSON_parse h p) = None.
Proof.
  intros Hfile Hbad. unfold loadDispatchStatus, loadDispatchStatus_plain.
  rewrite Hfile. destruct (data file) as [content|]; [|split; reflexivity].
  rewrite Hbad. split; reflexivity.
Qed.

(** A status path that names no file, or names a folder, leaves the
    plugin as it is. *)
Lemma loadDispatchStatus_no_file h p :
  match getAbstractFileByPath h statusPath with
  | Some (File _) => False
  | _ => True
  end ->
  load h p = (p, []) /\ loadDispatchStatus_plain JSON_parse h p = p.
Proof.
  unfold loadDispatchStatus, loadDispatchStatus_plain.
  destruct (getAbstractFileByPath h statusPath) as [[file|folder]|];
    [intros [] | split; reflexivity..].
Qed.

(** C1 at the failing input: with no status file in the vault the call
    changes nothing, so a snapshot held before is still held after, in
    both variants. *)
Theorem loadDispatchStatus_absent_file_keeps_snapshot :
  getAbstractFileByPath exHost statusPath = None
  /\ load exHost exStale = (exStale, [])
  /\ dispatchStatus (fst (load exHost exStale))
     = Some (exStatus "2024-06-10T06:00:00.000Z" None)
  /\ dispatchStatus (loadDispatchStatus_plain JSON_parse exHost exStale)
     = Some (exStatus "2024-06-10T06:00:00.000Z" None).
Proof. repeat split. Qed.

(** C5, as amended: the snapshot is fresh exactly when one is held, its
    [updated_at] is a date, and strictly less than five minutes have
    passed since; so one of ten minutes ago is not fresh and one of a
    minute ago is. *)
Theorem isDispatchFresh_iff h p :
  (fresh h p = true <->
   exists s t, dispatchStatus p = Some s /\ Date_getTime (updated_at s) = Some t
               /\ now (clock h) - t < 5 * 60 * 1000)
  /\ (forall s t, dispatchStatus p = Some s -> Date_getTime (updated_at s) = Some t ->
      (now (clock h) - t = 10 * 60 * 1000 -> fresh h p = false)
      /\ (now (clock h) - t = 1 * 60 * 1000 -> fresh h p = true)).
Proof.
  unfold isDispatchFresh. split.
  - split.
    + destruct (dispatchStatus p) as [s|]; [|discriminate].
      destruct (Date_getTime (updated_at s)) as [t|] eqn:Et; [|discriminate].
      intros Hlt. apply Z.ltb_lt in Hlt. exists s, t. repeat split; [exact Et | lia].
    + intros (s & t & -> & -> & Hlt). apply Z.ltb_lt. lia.
  - intros s t -> ->. split; intros Hage.
    + apply Z.ltb_ge. lia.
    + apply Z.ltb_lt. lia.
Qed.

Lemma sliceLast_keeps_last n (l : list string) x :
  (0 < n)%nat -> In x (sliceLast n (l ++ [x])).
Proof.
  intros Hn. unfold sliceLast. rewrite skipn_app.
  apply in_or_app. right.
  rewrite length_app. simpl.
  replace (length l + 1 - n - length l)%nat with 0%nat by lia.
  now left.
Qed.

Lemma recordPublishDay_records h p :
  In (todayText h) (publishDates (streakData (fst (recordPublishDay h p)))).
Proof.
  unfold recordPublishDay.
  destruct (includes (todayText h) (publishDates (streakData p))) eqn:E.
  - now apply includes_In.
  - cbn [fst set_streakData streakData publishDates].
    destruct (_ <? _)%nat.
    + apply sliceLast_keeps_last. lia.
    + apply in_or_app. right. now left.
Qed.

Lemma recordPublishDay_status h p :
  dispatchStatus (fst (recordPublishDay h p)) = dispatchStatus p.
Proof.
  unfold recordPublishDay. now destruct (includes _ _).
Qed.

Lemma celebratePublish_fst h slug p :
  fst (celebrate h slug p) = fst (recordPublishDay h p).
Proof.
  unfold celebratePublish. now destruct (recordPublishDay h p).
Qed.

Lemma celebratePublish_notice h slug p :
  exists saved more,
    snd (celebrate h slug p) =
    saved ++ [Notice (String.concat newline (("Published: " +:+ slug) :: more))].
Proof.
  unfold celebratePublish. destruct (recordPublishDay h p) as [p1 saved].
  exists saved. cbn [snd].
  destruct (1 <? _); destruct (_ && _);
    destruct (_ =? 0); try destruct (_ <=? 3); eexists; reflexivity.
Qed.


End StatusProperties.

Lemma isDispatchFresh_iff_witness :
  isDispatchFresh isoTime exHost
    (set_dispatchStatus (Some (exStatus "2024-06-10T06:03:20.000Z" None))
       (initialPlugin exSettings)) = false
  /\ isDispatchFresh isoTime exHost
       (set_dispatchStatus (Some (exStatus "2024-06-10T06:12:20.000Z" None))
          (initialPlugin exSettings)) = true.
Proof.
  split.
  - apply (proj2 (isDispatchFresh_iff isoTime exHost
                    (set_dispatchStatus
                       (Some (exStatus "2024-06-10T06:03:20.000Z" None))
                       (initialPlugin exSettings)))
                 (exStatus "2024-06-10T06:03:20.000Z" None) 1717999400000);
      reflexivity.
  - apply (proj2 (isDispatchFresh_iff isoTime exHost
                    (set_dispatchStatus
                       (Some (exStatus "2024-06-10T06:12:20.000Z" None))
                       (initialPlugin exSettings)))
                 (exStatus "2024-06-10T06:12:20.000Z" None) 1717999940000);
      reflexivity.
Defined.

(** C5 fails as stated at the boundary: a snapshot written exactly five
    minutes ago is held, and at most five minutes old, and not fresh. *)
Lemma isDispatchFresh_false_at_five_minutes :
  isoTime "2024-06-10T06:08:20.000Z" = Some (now (clock exHost) - 5 * 60 * 1000)
  /\ isDispatchFresh isoTime exHost
       (set_dispatchStatus (Some (exStatus "2024-06-10T06:08:20.000Z" None))
          (initialPlugin exSettings)) = false.
Proof. split; reflexivity. Qed.


(** What that refresh does: the publish day is recorded and saved, the
    notice is shown, and the new snapshot is held. *)
Example exRefresh_celebrates :
  snd (exRefresh (Some "new-post") (exHolding exSettings)) =
  [SaveData (mkStreak [] ["2024-06-10"]);
   Notice ("Published: new-post" +:+ newline +:+ "Almost there — only 1 draft left.")]
  /\ dispatchStatus (fst (exRefresh (Some "new-post") (exHolding exSettings)))
     = Some (exNewStatus (Some "new-post")).
Proof. split; vm_compute; reflexivity. Qed.


(** ** Milestones *)

(** With no snapshot held the words are estimated from the file sizes:
    one post of 2000 bytes. *)
Example getTotalBlogWords_from_sizes :
  getTotalBlogWords exHost (initialPlugin exSettings) = 400.
Proof. reflexivity. Qed.

Lemma firstMilestone_Some written last ms m :
  firstMilestone written last ms = Some m ->
  In m ms /\ m <= written /\ last < m.
Proof.
  induction ms as [|x ms IH]; simpl; [discriminate|].
  destruct (Z.leb_spec x written) as [Hle|Hgt];
    destruct (Z.ltb_spec last x) as [Hlt|Hge]; cbn [andb];
    try (intros H; destruct (IH H) as (Hin & Hle' & Hlt'); tauto).
  intros [= <-]. tauto.
Qed.

Lemma checkSessionMilestones_last h p :
  let p' := fst (checkSessionMilestones h p) in
  match celebrated p p' with
  | Some m => lastMilestoneCelebrated p < m /\ lastMilestoneCelebrated p' = m
              /\ In m milestones /\ m <= sessionWordsWritten p'
  | None => lastMilestoneCelebrated p' = lastMilestoneCelebrated p
  end.
Proof.
  unfold checkSessionMilestones, celebrated.
  destruct (celebrateMilestones (settings p)); cbn [negb fst].
  - destruct (firstMilestone _ _ milestones) as [m|] eqn:E; cbn [fst].
    + apply firstMilestone_Some in E. cbn in E. cbn.
      destruct (Z.eqb_spec m (lastMilestoneCelebrated p)); [lia | tauto].
    + cbn. now rewrite Z.eqb_refl.
  - now rewrite Z.eqb_refl.
Qed.

(** The notice of a call is the celebration of the milestone that
    [celebrated] reads off the plugin. *)
Lemma celebrated_notice h p :
  snd (checkSessionMilestones h p) =
  match celebrated p (fst (checkSessionMilestones h p)) with
  | Some m => celebrateMilestone m
  | None => []
  end.
Proof.
  pose proof (checkSessionMilestones_last h p) as H. cbv zeta in H.
  revert H. unfold checkSessionMilestones, celebrated.
  destruct (celebrateMilestones (settings p)); cbn [negb fst snd].
  - destruct (firstMilestone _ _ milestones) as [m|] eqn:E; cbn [fst snd].
    + apply firstMilestone_Some in E. cbn in E. cbn.
      destruct (Z.eqb_spec m (lastMilestoneCelebrated p)); [lia | reflexivity].
    + cbn. now rewrite Z.eqb_refl.
  - now rewrite Z.eqb_refl.
Qed.

Lemma session_cons e rest p :
  snd (session (e :: rest) p) =
  celebrated (arrive e p) (fst (checkSessionMilestones (ev_host e) (arrive e p)))
  :: snd (session rest (fst (checkSessionMilestones (ev_host e) (arrive e p)))).
Proof.
  cbn [session]. now destruct (session rest _).
Qed.

Lemma session_fired_above events :
  forall p m, In (Some m) (snd (session events p)) -> lastMilestoneCelebrated p < m.
Proof.
  induction events as [|e rest IH]; intros p m; [intros []|].
  rewrite session_cons.
  pose proof (checkSessionMilestones_last (ev_host e) (arrive e p)) as Hstep.
  cbv zeta in Hstep. change (lastMilestoneCelebrated (arrive e p))
    with (lastMilestoneCelebrated p) in Hstep.
  intros [Hhead|Htail].
  - rewrite Hhead in Hstep. lia.
  - apply IH in Htail. destruct (celebrated _ _); lia.
Qed.

Lemma session_increasing events :
  forall p (i j : nat) m m',
    (i < j)%nat ->
    snd (session events p) !! i = Some (Some m) ->
    snd (session events p) !! j = Some (Some m') ->
    m < m'.
Proof.
  induction events as [|e rest IH]; intros p i j m m' Hij; [intros [=]|].
  rewrite session_cons.
  destruct j as [|j]; [lia|]. destruct i as [|i]; cbn [lookup list_lookup].
  - intros [= Hhead] Hj.
    apply list_elem_of_lookup_2, list_elem_of_In, session_fired_above in Hj.
    pose proof (checkSessionMilestones_last (ev_host e) (arrive e p)) as Hstep.
    cbv zeta in Hstep. rewrite Hhead in Hstep. lia.
  - apply IH. lia.
Qed.

Lemma getTotalBlogWords_arrive h e p q :
  getTotalBlogWords h (arrive e p) = getTotalBlogWords h (arrive e q).
Proof. reflexivity. Qed.

Lemma checkSessionMilestones_start h p :
  sessionStartWordCount (fst (checkSessionMilestones h p)) = sessionStartWordCount p.
Proof.
  unfold checkSessionMilestones.
  destruct (celebrateMilestones (settings p)); cbn [negb fst]; [|reflexivity].
  now destruct (firstMilestone _ _ _).
Qed.

Lemma checkSessionMilestones_fires h p m :
  celebrateMilestones (settings p) = true ->
  firstMilestone (Z.max 0 (getTotalBlogWords h p - sessionStartWordCount p))
                 (lastMilestoneCelebrated p) milestones = Some m ->
  celebrated p (fst (checkSessionMilestones h p)) = Some m
  /\ lastMilestoneCelebrated (fst (checkSessionMilestones h p)) = m.
Proof.
  intros Hon Hfirst. unfold checkSessionMilestones, celebrated.
  rewrite Hon. cbn [negb sessionWordsWritten set_sessionWordsWritten
                    lastMilestoneCelebrated].
  rewrite Hfirst. cbn [fst lastMilestoneCelebrated set_lastMilestoneCelebrated].
  apply firstMilestone_Some in Hfirst.
  destruct (Z.eqb_spec m (lastMilestoneCelebrated p)); [lia | tauto].
Qed.

Lemma checkSessionMilestones_quiet h p :
  (celebrateMilestones (settings p) = true ->
   firstMilestone (Z.max 0 (getTotalBlogWords h p - sessionStartWordCount p))
                  (lastMilestoneCelebrated p) milestones = None) ->
  celebrated p (fst (checkSessionMilestones h p)) = None
  /\ lastMilestoneCelebrated (fst (checkSessionMilestones h p))
     = lastMilestoneCelebrated p.
Proof.
  intros Hfirst. unfold checkSessionMilestones, celebrated.
  destruct (celebrateMilestones (settings p)); cbn [negb fst].
  - cbn [sessionWordsWritten set_sessionWordsWritten lastMilestoneCelebrated].
    rewrite (Hfirst eq_refl). cbn. now rewrite Z.eqb_refl.
  - now rewrite Z.eqb_refl.
Qed.

(** C4, as amended: in a session the milestones celebrated go strictly
    up, so that once one is celebrated neither it nor a lower one is
    celebrated again; and when 250 is the last one celebrated and the
    words of the session go from 480 to 510 in one step, that step
    celebrates 500 words, and 100 words is not celebrated again
    whatever the total does afterwards. *)
Theorem milestones_never_refire :
  (forall events p (i j : nat) m m',
      (i < j)%nat ->
      snd (session events p) !! i = Some (Some m) ->
      snd (session events p) !! j = Some (Some m') ->
      m < m')
  /\ (forall p e1 e2 rest,
         lastMilestoneCelebrated p = 250 ->
         celebrateMilestones (ev_settings e2) = true ->
         sessionWordsAt e1 p = 480 ->
         sessionWordsAt e2 p = 510 ->
         exists later,
           snd (session (e1 :: e2 :: rest) p) = None :: Some 500 :: later
           /\ ~ In (Some 100) later).
Proof.
  split; [exact session_increasing|].
  intros p e1 e2 rest Hlast Hon H480 H510.
  rewrite !session_cons.
  set (p1 := fst (checkSessionMilestones (ev_host e1) (arrive e1 p))).
  set (p2 := fst (checkSessionMilestones (ev_host e2) (arrive e2 p1))).
  destruct (checkSessionMilestones_quiet (ev_host e1) (arrive e1 p)) as [Hc1 Hl1].
  { intros _. unfold sessionWordsAt in H480.
    change (sessionStartWordCount (arrive e1 p)) with (sessionStartWordCount p).
    rewrite H480. change (lastMilestoneCelebrated (arrive e1 p))
      with (lastMilestoneCelebrated p). now rewrite Hlast. }
  fold p1 in Hc1, Hl1.
  change (lastMilestoneCelebrated (arrive e1 p)) with (lastMilestoneCelebrated p) in Hl1.
  assert (Hstart : sessionStartWordCount p1 = sessionStartWordCount p)
    by exact (checkSessionMilestones_start (ev_host e1) (arrive e1 p)).
  destruct (checkSessionMilestones_fires (ev_host e2) (arrive e2 p1) 500 Hon)
    as [Hc2 Hl2].
  { unfold sessionWordsAt in H510.
    change (sessionStartWordCount (arrive e2 p1)) with (sessionStartWordCount p1).
    rewrite (getTotalBlogWords_arrive _ e2 p1 p), Hstart, H510.
    change (lastMilestoneCelebrated (arrive e2 p1)) with (lastMilestoneCelebrated p1).
    now rewrite Hl1, Hlast. }
  fold p2 in Hc2, Hl2.
  exists (snd (session rest p2)). rewrite Hc1, Hc2. split; [reflexivity|].
  intros Hin. apply session_fired_above in Hin. lia.
Qed.

Lemma milestones_never_refire_witness :
  exists later,
    snd (session [exEvent 480; exEvent 510; exEvent 90; exEvent 700] exMidSession)
    = None :: Some 500 :: later
    /\ ~ In (Some 100) later.
Proof.
  apply (proj2 milestones_never_refire exMidSession (exEvent 480) (exEvent 510)
           [exEvent 90; exEvent 700]); reflexivity.
Defined.

(** C4 fails as stated: in a session that has celebrated nothing yet
    and whose first event finds 480 words, that event celebrates 100
    words, and the step from 480 to 510 celebrates 250 words, not 500. *)
Lemma milestone_500_not_fired_at_crossing :
  sessionWordsAt (exEvent 480) (initialPlugin exSettings) = 480
  /\ sessionWordsAt (exEvent 510) (initialPlugin exSettings) = 510
  /\ snd (session [exEvent 480; exEvent 510] (initialPlugin exSettings))
     = [Some 100; Some 250]
  /\ snd (checkSessionMilestones exHost
            (arrive (exEvent 510)
               (fst (session [exEvent 480] (initialPlugin exSettings)))))
     = [Notice "250 words — the ideas are flowing."].
Proof. repeat split. Qed.

(** ** Daily word count *)

Lemma fold_left_conditional_sum {A} (P : A -> bool) (f : A -> Z) l a :
  fold_left (fun acc x => if P x then acc + f x else acc) l a =
  a + sumZ (map f (List.filter P l)).
Proof.
  revert a. induction l as [|x l IH]; intros a; simpl; [lia|].
  rewrite IH. destruct (P x); simpl; lia.
Qed.

Lemma fold_left_agree {A} (f g : Z -> A -> Z) l a :
  (forall acc x, f acc x = g acc x) -> fold_left f l a = fold_left g l a.
Proof.
  intros Hfg. revert a. induction l as [|x l IH]; intros a; simpl; [reflexivity|].
  now rewrite Hfg, IH.
Qed.

Lemma addSections_sum wc ss :
  addSections wc ss = wc + sumZ (map sectionEstimate (List.filter countedSection ss)).
Proof. apply fold_left_conditional_sum. Qed.

Lemma lineSpanLoop_sum h fs :
  lineSpanLoop h fs = sumZ (map fileEstimate (List.filter (modifiedToday h) fs)).
Proof.
  unfold lineSpanLoop.
  rewrite (fold_left_agree _
             (fun acc x => if modifiedToday h x then acc + fileEstimate x else acc)).
  - now rewrite fold_left_conditional_sum.
  - intros acc x. destruct (modifiedToday h x); [|reflexivity].
    unfold fileEstimate. destruct (fileCache x) as [[[ss|] ?]|]; simpl; try lia.
    apply addSections_sum.
Qed.

Lemma snapshotLoop_sum h sfs :
  snapshotLoop h sfs =
  sumZ (map sf_word_count (List.filter (modifiedTodayInVault h) sfs)).
Proof.
  unfold snapshotLoop.
  rewrite (fold_left_agree _
             (fun acc x => if modifiedTodayInVault h x
                           then acc + sf_word_count x else acc)).
  - now rewrite fold_left_conditional_sum.
  - intros acc x. unfold modifiedTodayInVault.
    now destruct (getAbstractFileByPath h (sf_path x)) as [[f|]|].
Qed.

(** C6, as amended: on the day already counted the cached count is
    returned; otherwise, with a snapshot held, fresh or not, the count
    is the sum of its [word_count]s over the entries whose vault file
    was modified today, and with no snapshot held it is the estimate of
    ten words a line over the blog files modified today; the count is
    then cached for the day. *)
Theorem getDailyWordCount_spec h p :
  (dailyWordCountDate p = todayText h ->
   getDailyWordCount h p = (p, dailyWordCountCache p))
  /\ (dailyWordCountDate p <> todayText h ->
      (forall s, dispatchStatus p = Some s ->
                 snd (getDailyWordCount h p) = snapshotWordsToday h s)
      /\ (dispatchStatus p = None ->
          snd (getDailyWordCount h p) = lineSpanEstimate h p)
      /\ dailyWordCountCache (fst (getDailyWordCount h p)) = snd (getDailyWordCount h p)
      /\ dailyWordCountDate (fst (getDailyWordCount h p)) = todayText h).
Proof.
  unfold getDailyWordCount. split.
  - intros ->. now rewrite String.eqb_refl.
  - intros Hne. destruct (String.eqb_spec (dailyWordCountDate p) (todayText h));
      [contradiction|]. cbn [fst snd].
    split; [intros s ->; apply snapshotLoop_sum|].
    split; [intros ->; apply lineSpanLoop_sum|].
    split; reflexivity.
Qed.

Lemma getDailyWordCount_spec_witness :
  snd (getDailyWordCount exHost exStale)
  = snapshotWordsToday exHost (exStatus "2024-06-10T06:00:00.000Z" None)
  /\ snd (getDailyWordCount exHost (initialPlugin exSettings))
     = lineSpanEstimate exHost (initialPlugin exSettings)
  /\ getDailyWordCount exHost exCounted = (exCounted, dailyWordCountCache exCounted).
Proof.
  split; [|split].
  - destruct (proj2 (getDailyWordCount_spec exHost exStale)) as (Hheld & _);
      [discriminate|]. exact (Hheld _ eq_refl).
  - destruct (proj2 (getDailyWordCount_spec exHost (initialPlugin exSettings)))
      as (_ & Hnone & _); [discriminate|]. exact (Hnone eq_refl).
  - apply (proj1 (getDailyWordCount_spec exHost exCounted)). reflexivity.
Defined.

(** C6 fails as stated: a snapshot that is held and not fresh is used
    all the same, and on a day already counted a fresh snapshot is not
    used. *)
Lemma getDailyWordCount_ignores_freshness :
  (isDispatchFresh isoTime exHost exStale = false
   /\ snd (getDailyWordCount exHost exStale) = 420
   /\ lineSpanEstimate exHost exStale = 10)
  /\ (isDispatchFresh isoTime exHost exCounted = true
      /\ snd (getDailyWordCount exHost exCounted) = 10
      /\ snapshotWordsToday exHost (exStatus "2024-06-10T06:12:20.000Z" None) = 420).
Proof. repeat split. Qed.

(** ** Slugs *)

Example slugify_hello :
  slugify asciiLower (codeUnits "  Hello, World -- 2nd Draft!  ")
  = codeUnits "hello-world-2nd-draft".
Proof. reflexivity. Qed.

Lemma replaceRuns_units b s : forallb isSlugUnit (replaceRuns b s) = true.
Proof.
  revert b. induction s as [|c s IH]; intros b; simpl; [reflexivity|].
  destruct (isLowerOrDigit c) eqn:E; simpl.
  - unfold isSlugUnit. rewrite E. simpl. apply IH.
  - destruct b; simpl; apply IH.
Qed.

Lemma replaceRuns_in_run s : startsWithHyphen (replaceRuns true s) = false.
Proof.
  induction s as [|c s IH]; simpl; [reflexivity|].
  destruct (isLowerOrDigit c) eqn:E; simpl; [|exact IH].
  destruct (N.eqb_spec c hyphen) as [->|]; [discriminate E | reflexivity].
Qed.

Lemma noDoubleHyphen_cons c s :
  noDoubleHyphen (c :: s) =
  negb ((c =? hyphen)%N && startsWithHyphen s) && noDoubleHyphen s.
Proof.
  destruct s; cbn [noDoubleHyphen startsWithHyphen];
    [rewrite andb_false_r|]; reflexivity.
Qed.

Lemma replaceRuns_single b s : noDoubleHyphen (replaceRuns b s) = true.
Proof.
  revert b. induction s as [|c s IH]; intros b; [reflexivity|].
  cbn [replaceRuns]. destruct (isLowerOrDigit c) eqn:E.
  - rewrite noDoubleHyphen_cons, IH.
    destruct (N.eqb_spec c hyphen) as [->|]; [discriminate E | reflexivity].
  - destruct b; [apply IH|].
    now rewrite noDoubleHyphen_cons, IH, replaceRuns_in_run, andb_false_r.
Qed.

Lemma stripLeading_units s :
  forallb isSlugUnit s = true -> forallb isSlugUnit (stripLeading s) = true.
Proof.
  destruct s as [|c s]; simpl; [tauto|].
  intros H. apply andb_prop in H as [Hc Hs].
  destruct (c =? hyphen)%N; simpl; [exact Hs | now rewrite Hc].
Qed.

Lemma stripLeading_single s :
  noDoubleHyphen s = true -> noDoubleHyphen (stripLeading s) = true.
Proof.
  destruct s as [|c s]; [tauto|]. rewrite noDoubleHyphen_cons.
  intros H. apply andb_prop in H as [Hc Hs]. cbn [stripLeading].
  destruct (c =? hyphen)%N eqn:E; [exact Hs|].
  now rewrite noDoubleHyphen_cons, E, Hs.
Qed.

Lemma stripLeading_start s :
  noDoubleHyphen s = true -> startsWithHyphen (stripLeading s) = false.
Proof.
  destruct s as [|c s]; [reflexivity|]. rewrite noDoubleHyphen_cons.
  intros H. apply andb_prop in H as [Hc _]. cbn [stripLeading].
  destruct (c =? hyphen)%N eqn:E; simpl in *; [|exact E].
  now destruct (startsWithHyphen s).
Qed.

Lemma stripTrailing_units s :
  forallb isSlugUnit s = true -> forallb isSlugUnit (stripTrailing s) = true.
Proof.
  induction s as [|c s IH]; [tauto|]. cbn [forallb stripTrailing].
  intros H. apply andb_prop in H as [Hc Hs].
  destruct s as [|c' s].
  - destruct (c =? hyphen)%N; simpl; [reflexivity | now rewrite Hc].
  - cbn [forallb]. rewrite Hc. apply IH, Hs.
Qed.

Lemma stripTrailing_start s :
  startsWithHyphen s = false -> startsWithHyphen (stripTrailing s) = false.
Proof.
  destruct s as [|c [|c' s]]; cbn [stripTrailing startsWithHyphen];
    [tauto | | tauto].
  intros E. rewrite E. exact E.
Qed.

Lemma stripTrailing_single s :
  noDoubleHyphen s = true -> noDoubleHyphen (stripTrailing s) = true.
Proof.
  induction s as [|c s IH]; [tauto|]. rewrite noDoubleHyphen_cons.
  intros H. apply andb_prop in H as [Hc Hs]. cbn [stripTrailing].
  destruct s as [|c' s].
  - now destruct (c =? hyphen)%N.
  - rewrite noDoubleHyphen_cons, (IH Hs), andb_true_r.
    destruct (c =? hyphen)%N; [|reflexivity]. cbn [andb negb] in *.
    destruct (startsWithHyphen (c' :: s)) eqn:E; [discriminate Hc|].
    now rewrite (stripTrailing_start _ E).
Qed.

Lemma stripTrailing_end s :
  noDoubleHyphen s = true -> endsWithHyphen (stripTrailing s) = false.
Proof.
  induction s as [|c s IH]; [reflexivity|]. rewrite noDoubleHyphen_cons.
  intros H. apply andb_prop in H as [Hc Hs]. cbn [stripTrailing].
  destruct s as [|c' s].
  - destruct (c =? hyphen)%N eqn:E; simpl; [reflexivity | exact E].
  - specialize (IH Hs). cbn [stripTrailing] in *.
    destruct s as [|c'' s].
    + destruct (c' =? hyphen)%N eqn:E'; cbn [endsWithHyphen].
      * destruct (c =? hyphen)%N eqn:E; [|reflexivity].
        simpl in Hc. rewrite E' in Hc. discriminate Hc.
      * exact E'.
    + exact IH.
Qed.

Lemma replaceRuns_fixes s :
  forallb isSlugUnit s = true -> noDoubleHyphen s = true ->
  replaceRuns false s = s
  /\ (startsWithHyphen s = false -> replaceRuns true s = s).
Proof.
  induction s as [|c s IH]; [now split|].
  cbn [forallb]. rewrite noDoubleHyphen_cons.
  intros Hu Hs. apply andb_prop in Hu as [Hc Hu]. apply andb_prop in Hs as [Hd Hs].
  destruct (IH Hu Hs) as [IHf IHt]. cbn [replaceRuns startsWithHyphen].
  destruct (isLowerOrDigit c) eqn:E.
  - rewrite IHf. now split.
  - unfold isSlugUnit in Hc. rewrite E in Hc. cbn [orb] in Hc.
    rewrite Hc in *. cbn [andb] in Hd.
    destruct (startsWithHyphen s); [discriminate Hd|].
    rewrite (IHt eq_refl). apply N.eqb_eq in Hc. subst c. split; [reflexivity|].
    discriminate.
Qed.

Lemma stripLeading_fixes s : startsWithHyphen s = false -> stripLeading s = s.
Proof. destruct s as [|c s]; simpl; [reflexivity | now intros ->]. Qed.

Lemma stripTrailing_fixes s : endsWithHyphen s = false -> stripTrailing s = s.
Proof.
  induction s as [|c s IH]; [reflexivity|]. cbn [endsWithHyphen stripTrailing].
  destruct s as [|c' s]; [now intros -> | intros H; now rewrite (IH H)].
Qed.

Lemma slugShaped_parts s :
  slugShaped s = true <->
  forallb isSlugUnit s = true /\ noDoubleHyphen s = true
  /\ startsWithHyphen s = false /\ endsWithHyphen s = false.
Proof.
  unfold slugShaped. rewrite !andb_true_iff, !negb_true_iff. tauto.
Qed.

(** C9: whatever the title and whatever [toLowerCase] does to it, the
    slug consists of lowercase letters, digits and hyphens, has no two
    hyphens in a row and none at either end; and, [toLowerCase] leaving
    such texts as they are, the slug of a slug is that slug. *)
Theorem slugify_shape_idempotent toLowerCase title :
  (forall s, forallb isSlugUnit s = true -> toLowerCase s = s) ->
  slugShaped (slugify toLowerCase title) = true
  /\ slugify toLowerCase (slugify toLowerCase title) = slugify toLowerCase title.
Proof.
  intros Hlower.
  assert (Hshape : slugShaped (slugify toLowerCase title) = true).
  { apply slugShaped_parts. unfold slugify.
    pose proof (replaceRuns_units false (toLowerCase title)) as Hu.
    pose proof (replaceRuns_single false (toLowerCase title)) as Hs.
    repeat split.
    - now apply stripTrailing_units, stripLeading_units.
    - now apply stripTrailing_single, stripLeading_single.
    - now apply stripTrailing_start, stripLeading_start.
    - now apply stripTrailing_end, stripLeading_single. }
  split; [exact Hshape|].
  apply slugShaped_parts in Hshape as (Hu & Hs & Hstart & Hend).
  unfold slugify at 1. rewrite (Hlower _ Hu).
  rewrite (proj1 (replaceRuns_fixes _ Hu Hs)).
  now rewrite (stripLeading_fixes _ Hstart), (stripTrailing_fixes _ Hend).
Qed.

Lemma asciiLower_fixes s : forallb isSlugUnit s = true -> asciiLower s = s.
Proof.
  induction s as [|c s IH]; [reflexivity|]. cbn [forallb asciiLower map].
  intros H. apply andb_prop in H as [Hc Hs]. fold (asciiLower s).
  rewrite (IH Hs). f_equal.
  unfold isSlugUnit, isLowerOrDigit, hyphen in Hc.
  destruct (N.leb_spec 65 c); destruct (N.leb_spec c 90); cbn [andb];
    try reflexivity.
  exfalso.
  destruct (N.leb_spec 97 c); destruct (N.leb_spec 48 c);
    destruct (N.leb_spec c 57); destruct (N.eqb_spec c 45);
    cbn in Hc; try discriminate Hc; try lia;
    destruct (N.leb_spec c 122); cbn in Hc; try discriminate Hc; lia.
Qed.

Lemma slugify_shape_idempotent_witness :
  slugShaped (slugify asciiLower (codeUnits "Hello, World!")) = true
  /\ slugify asciiLower (slugify asciiLower (codeUnits "Hello, World!"))
     = slugify asciiLower (codeUnits "Hello, World!").
Proof.
  apply (slugify_shape_idempotent asciiLower (codeUnits "Hello, World!")).
  exact asciiLower_fixes.
Defined.

(** ** Calendar days and their texts *)

Lemma digit_range n : 0 <= n <= 9 -> In n digits.
Proof. cbn. lia. Qed.

(** Case analysis on a number known to be a digit. *)
Ltac each_digit H :=
  apply digit_range in H; cbn [In digits] in H;
  repeat (destruct H as [<-|H]); try (exfalso; exact H).

Lemma digit_val_digit n : 0 <= n <= 9 -> digit_val (digit n) = Some n.
Proof. intros H. each_digit H; reflexivity. Qed.

Lemma digit_compare a b :
  0 <= a <= 9 -> 0 <= b <= 9 -> Ascii.compare (digit a) (digit b) = (a ?= b).
Proof. intros Ha Hb. each_digit Ha; each_digit Hb; reflexivity. Qed.

(** A digit character is the digit of one number only. *)
Lemma digit_inj a b : 0 <= b <= 9 -> digit a = digit b -> a = b.
Proof.
  intros Hb. each_digit Hb;
    (destruct a as [|[[[|[]|]|[|[]|]|]|[[|[]|]|[|[]|]|]|]|]; cbn; congruence).
Qed.

Lemma tens_units n : 0 <= n < 100 -> 0 <= n / 10 <= 9 /\ 0 <= n mod 10 <= 9.
Proof.
  intros H. pose proof (Z.div_mod n 10 ltac:(lia)).
  pose proof (Z.mod_pos_bound n 10 ltac:(lia)). lia.
Qed.

Lemma two_digits_pad n :
  0 <= n < 100 -> two_digits (digit (n / 10)) (digit (n mod 10)) = Some n.
Proof.
  intros H. destruct (tens_units n H) as [Ht Hu]. unfold two_digits.
  rewrite (digit_val_digit _ Ht), (digit_val_digit _ Hu). f_equal.
  pose proof (Z.div_mod n 10 ltac:(lia)). lia.
Qed.

Lemma pad2_compare x y r r' :
  0 <= x < 100 -> 0 <= y < 100 ->
  String.compare (pad2 x r) (pad2 y r') =
  match x ?= y with
  | Eq => String.compare r r'
  | c => c
  end.
Proof.
  intros Hx Hy. destruct (tens_units x Hx) as [Hxt Hxu].
  destruct (tens_units y Hy) as [Hyt Hyu].
  unfold pad2. cbn [String.compare].
  rewrite (digit_compare _ _ Hxt Hyt), (digit_compare _ _ Hxu Hyu).
  pose proof (Z.div_mod x 10 ltac:(lia)). pose proof (Z.div_mod y 10 ltac:(lia)).
  destruct (Z.compare_spec (x / 10) (y / 10));
    destruct (Z.compare_spec (x mod 10) (y mod 10));
    destruct (Z.compare_spec x y); try reflexivity; lia.
Qed.

Lemma pad2_inj x y r r' :
  0 <= y < 100 -> pad2 x r = pad2 y r' -> x = y /\ r = r'.
Proof.
  intros Hy. destruct (tens_units y Hy) as [Hyt Hyu].
  unfold pad2. intros [= Ht Hu Hr].
  apply (digit_inj _ _ Hyt) in Ht. apply (digit_inj _ _ Hyu) in Hu.
  pose proof (Z.div_mod x 10 ltac:(lia)). pose proof (Z.div_mod y 10 ltac:(lia)).
  split; [lia | exact Hr].
Qed.

Lemma string_tail c s c' s' : String c s = String c' s' -> s = s'.
Proof. now intros [= _ H]. Qed.

Lemma daysInMonth_bounds y m : 28 <= daysInMonth y m <= 31.
Proof.
  unfold daysInMonth. destruct (m =? 2); [destruct (isLeapYear y); lia|].
  destruct (_ || _); lia.
Qed.

Lemma validDate_bounds d :
  validDate d = true ->
  0 <= year d <= 9999 /\ 1 <= month d <= 12
  /\ 1 <= day d <= daysInMonth (year d) (month d).
Proof.
  unfold validDate. rewrite !andb_true_iff, !Z.leb_le. tauto.
Qed.

Lemma year_parts y :
  0 <= y <= 9999 -> 0 <= y / 100 < 100 /\ 0 <= y mod 100 < 100.
Proof.
  intros H. pose proof (Z.div_mod y 100 ltac:(lia)).
  pose proof (Z.mod_pos_bound y 100 ltac:(lia)). lia.
Qed.

Lemma parse_format d : validDate d = true -> parse_date (format_date d) = Some d.
Proof.
  intros Hv. destruct (validDate_bounds d Hv) as (Hy & Hm & Hd).
  pose proof (daysInMonth_bounds (year d) (month d)) as Hdim.
  destruct (year_parts _ Hy) as [Hyh Hyl].
  unfold format_date, pad2, parse_date. cbn [Ascii.eqb Bool.eqb andb].
  rewrite (two_digits_pad _ Hyh), (two_digits_pad _ Hyl).
  rewrite (two_digits_pad (month d)), (two_digits_pad (day d)) by lia.
  replace (100 * (year d / 100) + year d mod 100) with (year d)
    by (pose proof (Z.div_mod (year d) 100 ltac:(lia)); lia).
  destruct d as [y m dd]. cbn [year month day] in *. now rewrite Hv.
Qed.

Lemma format_date_inj x d :
  validDate d = true -> format_date x = format_date d -> x = d.
Proof.
  intros Hv. destruct (validDate_bounds d Hv) as (Hy & Hm & Hd).
  pose proof (daysInMonth_bounds (year d) (month d)) as Hdim.
  destruct (year_parts _ Hy) as [Hyh Hyl].
  unfold format_date. intros E.
  apply (pad2_inj _ _ _ _ Hyh) in E as [Eh E].
  apply (pad2_inj _ _ _ _ Hyl) in E as [El E].
  apply string_tail in E. apply pad2_inj in E as [Em E]; [|lia].
  apply string_tail in E. apply pad2_inj in E as [Ed _]; [|lia].
  pose proof (Z.div_mod (year x) 100 ltac:(lia)).
  pose proof (Z.div_mod (year d) 100 ltac:(lia)).
  destruct x, d. cbn [year month day] in *. f_equal; lia.
Qed.

Lemma format_compare a b :
  validDate a = true -> validDate b = true ->
  String.compare (format_date a) (format_date b) = date_compare a b.
Proof.
  intros Ha Hb.
  destruct (validDate_bounds a Ha) as (Hya & Hma & Hda).
  destruct (validDate_bounds b Hb) as (Hyb & Hmb & Hdb).
  pose proof (daysInMonth_bounds (year a) (month a)).
  pose proof (daysInMonth_bounds (year b) (month b)).
  destruct (year_parts _ Hya) as [Hah Hal]. destruct (year_parts _ Hyb) as [Hbh Hbl].
  unfold format_date, date_compare.
  rewrite (pad2_compare _ _ _ _ Hah Hbh), (pad2_compare _ _ _ _ Hal Hbl).
  cbn [String.compare]. change (Ascii.compare "-" "-") with Eq. cbv iota.
  rewrite (pad2_compare (month a) (month b)) by lia.
  cbn [String.compare]. change (Ascii.compare "-" "-") with Eq. cbv iota.
  rewrite (pad2_compare (day a) (day b)) by lia.
  cbn [String.compare].
  pose proof (Z.div_mod (year a) 100 ltac:(lia)).
  pose proof (Z.div_mod (year b) 100 ltac:(lia)).
  destruct (Z.compare_spec (year a / 100) (year b / 100));
    destruct (Z.compare_spec (year a mod 100) (year b mod 100));
    destruct (Z.compare_spec (year a) (year b)); try lia;
    try reflexivity.
  destruct (month a ?= month b); [|reflexivity..].
  now destruct (day a ?= day b).
Qed.

Lemma date_compare_spec a b :
  match date_compare a b with
  | Eq => a = b
  | Lt => date_lt a b
  | Gt => date_lt b a
  end.
Proof.
  unfold date_compare, date_lt. destruct a as [y m d], b as [y' m' d'].
  cbn [year month day].
  destruct (Z.compare_spec y y'); [|lia..].
  destruct (Z.compare_spec m m'); [|lia..].
  destruct (Z.compare_spec d d'); [congruence | lia..].
Qed.

Lemma date_lt_irrefl a : ~ date_lt a a.
Proof. unfold date_lt. lia. Qed.

Lemma date_lt_trans a b c : date_lt a b -> date_lt b c -> date_lt a c.
Proof. unfold date_lt. lia. Qed.

Lemma date_le_lt_trans a b c : date_le a b -> date_lt b c -> date_lt a c.
Proof. intros [H| ->]; [apply date_lt_trans, H | tauto]. Qed.

Lemma date_lt_le_trans a b c : date_lt a b -> date_le b c -> date_lt a c.
Proof. intros H [H'| <-]; [eapply date_lt_trans; eassumption | exact H]. Qed.

Lemma date_le_trans : Transitive date_le.
Proof.
  intros a b c Hab [Hbc| <-]; [|exact Hab].
  left. eapply date_le_lt_trans; eassumption.
Qed.

Lemma subtractDay_lt d : date_lt (subtractDay d) d.
Proof.
  unfold subtractDay, date_lt.
  destruct (Z.ltb_spec 1 (day d)); [cbn; lia|].
  destruct (Z.ltb_spec 1 (month d)); cbn; lia.
Qed.

Lemma daysBack_succ n d : daysBack (S n) d = daysBack n (subtractDay d).
Proof. unfold daysBack. now rewrite Nat.iter_succ_r. Qed.

Lemma daysBack_le n d : date_le (daysBack n d) d.
Proof.
  induction n as [|n IH]; [now right|]. left.
  change (daysBack (S n) d) with (subtractDay (daysBack n d)).
  eapply date_lt_le_trans; [apply subtractDay_lt | exact IH].
Qed.

Lemma isSame_true a b : isSame a b = true <-> a = b.
Proof.
  unfold isSame. pose proof (date_compare_spec a b) as H.
  destruct (date_compare a b); split; try congruence; intros ->;
    now apply date_lt_irrefl in H.
Qed.

Lemma isBefore_true a b : isBefore a b = true <-> date_lt a b.
Proof.
  unfold isBefore. pose proof (date_compare_spec a b) as H.
  destruct (date_compare a b); split; try congruence; intros H'.
  - subst. now apply date_lt_irrefl in H'.
  - exfalso. apply (date_lt_irrefl a). eapply date_lt_trans; eassumption.
Qed.

(** The loop on a list that goes down: it counts the days of the run
    that ends at [expected]. *)
Lemma walk_run l :
  forall expected streak (n : nat),
    StronglySorted (flip date_le) l ->
    (forall i, (i < n)%nat -> In (daysBack i expected) l) ->
    ~ In (daysBack n expected) l ->
    walk expected streak l = streak + Z.of_nat n.
Proof.
  induction l as [|d l IH]; intros e s n Hsorted Hrun Hgap.
  - destruct n as [|n]; [simpl; lia|]. destruct (Hrun 0%nat ltac:(lia)).
  - apply StronglySorted_inv in Hsorted as [Hsorted Hbelow].
    rewrite List.Forall_forall in Hbelow. cbn [walk].
    destruct (isSame d e) eqn:Esame.
    + apply isSame_true in Esame. subst d.
      destruct n as [|n]; [exfalso; apply Hgap; now left|].
      rewrite (IH (subtractDay e) (s + 1) n Hsorted); [lia| |].
      * intros i Hi. rewrite <- daysBack_succ.
        destruct (Hrun (S i) ltac:(lia)) as [Heq|Hin]; [|exact Hin].
        exfalso. apply (date_lt_irrefl e). rewrite Heq at 1.
        rewrite daysBack_succ.
        eapply date_le_lt_trans; [apply daysBack_le | apply subtractDay_lt].
      * rewrite <- daysBack_succ. intros Hin. apply Hgap. now right.
    + destruct (isBefore d e) eqn:Ebefore.
      * apply isBefore_true in Ebefore.
        destruct n as [|n]; [lia|]. exfalso.
        destruct (Hrun 0%nat ltac:(lia)) as [Heq|Hin].
        -- cbn in Heq. subst d. now apply date_lt_irrefl in Ebefore.
        -- apply Hbelow in Hin. cbn in Hin. unfold flip in Hin.
           apply (date_lt_irrefl e).
           eapply date_le_lt_trans; eassumption.
      * apply (IH e s n Hsorted).
        -- intros i Hi. destruct (Hrun i Hi) as [Heq|Hin]; [|exact Hin].
           exfalso. pose proof (daysBack_le i e) as Hle. rewrite <- Heq in Hle.
           pose proof (date_compare_spec d e) as Hc.
           unfold isSame in Esame. unfold isBefore in Ebefore.
           destruct (date_compare d e); try discriminate.
           apply (date_lt_irrefl e). eapply date_lt_le_trans; eassumption.
        -- intros Hin. apply Hgap. now right.
Qed.

Lemma dayOf_format d : validDate d = true -> dayOf (format_date d) = d.
Proof. intros Hv. unfold dayOf. now rewrite parse_format. Qed.

Lemma streakLoop_walk l :
  Forall dayText l ->
  forall expected streak,
    streakLoop expected streak l = walk expected streak (map dayOf l).
Proof.
  induction 1 as [|s l (d & Hv & ->) Hl IH]; intros e n; [reflexivity|].
  cbn [streakLoop map walk]. rewrite (dayOf_format d Hv), (parse_format d Hv).
  rewrite !IH. reflexivity.
Qed.

Lemma StronglySorted_rev_flip {A} (R : relation A) l :
  StronglySorted R l -> StronglySorted (flip R) (rev l).
Proof.
  induction 1 as [|a l Hsorted IH Hall]; [constructor|].
  cbn [rev]. apply StronglySorted_app_2; [|exact IH|repeat constructor].
  intros x y Hx Hy. apply list_elem_of_In in Hx. apply in_rev in Hx.
  apply list_elem_of_singleton in Hy. subst y.
  rewrite Forall_forall in Hall. apply Hall. now apply list_elem_of_In.
Qed.

Lemma leb_days a b :
  validDate a = true -> validDate b = true ->
  String.leb (format_date a) (format_date b) = true -> date_le a b.
Proof.
  intros Ha Hb. unfold String.leb. rewrite (format_compare a b Ha Hb).
  pose proof (date_compare_spec a b) as H.
  destruct (date_compare a b); [now right | now left | discriminate].
Qed.

Lemma sorted_days l :
  Forall dayText l ->
  Sorted (fun x y => is_true (String.leb x y)) l ->
  StronglySorted date_le (map dayOf l).
Proof.
  intros Hiso Hsorted. apply Sorted_StronglySorted; [exact date_le_trans|].
  induction Hsorted as [|s l Hsorted IH Hhd]; [constructor|].
  apply Forall_cons_iff in Hiso as [(d & Hv & ->) Hiso].
  cbn [map]. constructor; [apply IH, Hiso|].
  destruct Hhd as [|t l Hst]; [constructor|].
  apply Forall_cons_iff in Hiso as [(d' & Hv' & ->) _].
  cbn [map]. constructor. rewrite !dayOf_format by assumption.
  now apply leb_days.
Qed.

Lemma getWritingStreak_loop h p :
  getWritingStreak h p =
  streakLoop (today (clock h)) 0 (rev (sort (dates (streakData p)))).
Proof. unfold getWritingStreak. now destruct (rev _). Qed.

Lemma sort_dayText l : Forall dayText l -> Forall dayText (rev (sort l)).
Proof.
  intros H. apply List.Forall_rev.
  eapply Permutation_Forall; [apply StringSort.Permuted_sort | exact H].
Qed.

Lemma sort_days_In l x :
  In x (map dayOf (rev (sort l))) <-> exists s, In s l /\ dayOf s = x.
Proof.
  rewrite in_map_iff. split.
  - intros (s & Hday & Hs). exists s. split; [|exact Hday].
    apply in_rev in Hs.
    eapply Permutation_in; [symmetry; apply StringSort.Permuted_sort | exact Hs].
  - intros (s & Hs & Hday). exists s. split; [exact Hday|].
    apply in_rev. rewrite rev_involutive.
    eapply Permutation_in; [apply StringSort.Permuted_sort | exact Hs].
Qed.

Lemma sort_days_sorted l :
  Forall dayText l -> StronglySorted (flip date_le) (map dayOf (rev (sort l))).
Proof.
  intros H. rewrite map_rev. apply StronglySorted_rev_flip, sorted_days.
  - eapply Permutation_Forall; [apply StringSort.Permuted_sort | exact H].
  - apply StringSort.Sorted_sort.
Qed.

(** A list of day texts holds the day [d] exactly when it holds its
    text. *)
Lemma dayText_In l d :
  Forall dayText l ->
  (exists s, In s l /\ dayOf s = d) <-> In (format_date d) l.
Proof.
  intros Hiso. rewrite List.Forall_forall in Hiso. split.
  - intros (s & Hs & <-). destruct (Hiso s Hs) as (d' & Hv & ->).
    now rewrite dayOf_format.
  - intros Hin. exists (format_date d). split; [exact Hin|].
    destruct (Hiso _ Hin) as (d' & Hv & E).
    apply (format_date_inj d d' Hv) in E. subst d'. now apply dayOf_format.
Qed.

Lemma parse_date_valid s d : parse_date s = Some d -> validDate d = true.
Proof.
  unfold parse_date.
  do 10 (destruct s as [|? s]; [discriminate|]).
  destruct s; [|discriminate].
  destruct (_ && _); [|discriminate].
  repeat (destruct (two_digits _ _); [|discriminate]).
  destruct (validDate _) eqn:E; [|discriminate].
  now intros [= <-].
Qed.

Lemma isoDay_dayText s : isoDay s = true <-> dayText s.
Proof.
  unfold isoDay, dayText. split.
  - destruct (parse_date s) as [d|] eqn:E; [|discriminate].
    intros Heq. apply String.eqb_eq in Heq. exists d.
    split; [exact (parse_date_valid s d E) | exact Heq].
  - intros (d & Hv & ->). rewrite (parse_format d Hv). apply String.eqb_refl.
Qed.

Lemma isoDay_all l : forallb isoDay l = true -> Forall dayText l.
Proof.
  rewrite forallb_forall, List.Forall_forall.
  intros H s Hs. apply isoDay_dayText, H, Hs.
Qed.

(** C2: on a list of "YYYY-MM-DD" days, distinct or not, the streak is
    0 when today is not in the list, and it is [n] when the list holds
    the [n] days that end today and does not hold the day before them,
    whatever else it holds. *)
Theorem getWritingStreak_spec h p :
  forallb isoDay (dates (streakData p)) = true ->
  (~ In (todayText h) (dates (streakData p)) -> getWritingStreak h p = 0)
  /\ (forall n : nat,
         (forall i, (i < n)%nat ->
                    In (format_date (daysBack i (today (clock h))))
                       (dates (streakData p))) ->
         ~ In (format_date (daysBack n (today (clock h)))) (dates (streakData p)) ->
         getWritingStreak h p = Z.of_nat n).
Proof.
  intros Hiso. apply isoDay_all in Hiso.
  assert (Hrun : forall n : nat,
             (forall i, (i < n)%nat ->
                        In (format_date (daysBack i (today (clock h))))
                           (dates (streakData p))) ->
             ~ In (format_date (daysBack n (today (clock h)))) (dates (streakData p)) ->
             getWritingStreak h p = Z.of_nat n).
  { intros n Hdays Hgap.
    rewrite getWritingStreak_loop, (streakLoop_walk _ (sort_dayText _ Hiso)).
    rewrite (walk_run _ _ 0 n (sort_days_sorted _ Hiso)); [lia| |].
    - intros i Hi. apply sort_days_In, (dayText_In _ _ Hiso), Hdays, Hi.
    - intros Hin. apply Hgap. now apply (dayText_In _ _ Hiso), sort_days_In. }
  split; [|exact Hrun].
  intros Hnot. apply (Hrun 0%nat); [lia | exact Hnot].
Qed.

Example recordWritingDay_first_day :
  recordWritingDay exHost (initialPlugin exSettings) =
  (set_streakData (mkStreak ["2024-06-10"] []) (initialPlugin exSettings),
   [SaveData (mkStreak ["2024-06-10"] [])]).
Proof. reflexivity. Qed.

Example subtractDay_leap_day :
  format_date (subtractDay (mkDate 2024 3 1)) = "2024-02-29"
  /\ format_date (subtractDay (mkDate 2023 3 1)) = "2023-02-28"
  /\ format_date (subtractDay (mkDate 2024 1 1)) = "2023-12-31".
Proof. repeat split. Qed.

Example exDates_sorted :
  rev (sort exDates) =
  ["2024-06-11"; "2024-06-10"; "2024-06-09"; "2024-06-08"; "2024-06-06";
   "2024-05-30"].
Proof. reflexivity. Qed.

Example exWriter_streak :
  getWritingStreak exHost exWriter = 3
  /\ getWritingStreak exHostEarlier exWriter = 0.
Proof. split; reflexivity. Qed.

Lemma getWritingStreak_spec_witness :
  getWritingStreak exHostEarlier exWriter = 0
  /\ getWritingStreak exHost exWriter = Z.of_nat 3.
Proof.
  assert (Hiso : forallb isoDay (dates (streakData exWriter)) = true)
    by reflexivity.
  split.
  - apply (proj1 (getWritingStreak_spec exHostEarlier exWriter Hiso)).
    cbn. intuition discriminate.
  - apply (proj2 (getWritingStreak_spec exHost exWriter Hiso) 3%nat).
    + intros i Hi. destruct i as [|[|[|i]]]; [cbn; tauto.. | lia].
    + cbn. intuition discriminate.
Defined.

(** * Further properties *)

(** ** The queue: loading, lookup, persistence *)

Section QueueFileProperties.

Variable JSON_parse_queue : string -> option DispatchQueue.

Local Abbreviation loadQueue := (loadDispatchQueue JSON_parse_queue).


End QueueFileProperties.


Lemma isFileReady_includes p x : isFileReady p x = includes x (readyOf p).
Proof. unfold isFileReady, readyOf. now destruct (dispatchQueue p). Qed.

Lemma includes_app x l l' : includes x (l ++ l') = includes x l || includes x l'.
Proof. unfold includes. apply existsb_app. Qed.

Lemma includes_filter_out x y l :
  includes x (List.filter (fun z => negb (String.eqb z y)) l) =
  includes x l && negb (String.eqb x y).
Proof.
  induction l as [|a l IH]; [reflexivity|]. cbn [List.filter].
  destruct (String.eqb_spec a y) as [->|Hay]; cbn [negb].
  - rewrite IH. cbn [includes existsb].
    destruct (String.eqb_spec x y); cbn; [now rewrite andb_false_r | reflexivity].
  - change (includes x (a :: ?t)) with (String.eqb x a || includes x t).
    rewrite IH. destruct (String.eqb_spec x a) as [->|Hxa]; [|reflexivity].
    destruct (String.eqb_spec a y); [contradiction | reflexivity].
Qed.

(** X2: [isFileReady] answers for the marks made: after [markReady] it
    is true for the path marked and as before for every other path;
    after [unmarkReady] it is false for the path unmarked, however many
    times the list named it, and as before for every other path. *)
Theorem isFileReady_after_update h file note p x :
  isFileReady (fst (markReady h file note p)) x
  = isFileReady p x || String.eqb x (path file)
  /\ isFileReady (fst (unmarkReady h file p)) x
     = isFileReady p x && negb (String.eqb x (path file)).
Proof.
  rewrite !isFileReady_includes, markReady_ready, unmarkReady_ready. split.
  - destruct (includes (path file) (readyOf p)) eqn:E.
    + destruct (String.eqb_spec x (path file)) as [->|];
        [now rewrite E | now rewrite orb_false_r].
    + rewrite includes_app. cbn. now rewrite orb_false_r.
  - apply includes_filter_out.
Qed.


Lemma filter_out_NoDup (y : string) l :
  List.NoDup l -> List.NoDup (List.filter (fun z => negb (String.eqb z y)) l).
Proof. apply List.NoDup_filter. Qed.

(** X4: a [ready] list without repetitions stays so under [markReady]
    and [unmarkReady]; [markReady] keeps the entries it finds, in their
    order, in front of the one it adds. *)
Theorem ready_stays_duplicate_free h file note p :
  List.NoDup (readyOf p) ->
  List.NoDup (readyOf (fst (markReady h file note p)))
  /\ List.NoDup (readyOf (fst (unmarkReady h file p)))
  /\ exists added, readyOf (fst (markReady h file note p)) = readyOf p ++ added.
Proof.
  intros Hnd. rewrite markReady_ready, unmarkReady_ready. split; [|split].
  - destruct (includes (path file) (readyOf p)) eqn:E; [exact Hnd|].
    apply includes_false in E. apply List.NoDup_app.
    + exact Hnd.
    + repeat constructor. intros [].
    + intros x Hx [<-|[]]. contradiction.
  - apply filter_out_NoDup, Hnd.
  - destruct (includes (path file) (readyOf p));
      [exists []; now rewrite app_nil_r | now exists [path file]].
Qed.

Lemma ready_stays_duplicate_free_witness :
  List.NoDup (readyOf (fst (markReady exHost exPost None exQueued)))
  /\ List.NoDup (readyOf (fst (unmarkReady exHost exPost exQueued)))
  /\ exists added,
       readyOf (fst (markReady exHost exPost None exQueued))
       = readyOf exQueued ++ added.
Proof.
  apply (ready_stays_duplicate_free exHost exPost None exQueued).
  cbn. repeat constructor. intros [].
Defined.

Lemma filter_out_twice (y : string) l :
  List.filter (fun z => negb (String.eqb z y))
              (List.filter (fun z => negb (String.eqb z y)) l)
  = List.filter (fun z => negb (String.eqb z y)) l.
Proof.
  apply filter_out_absent. rewrite filter_In, String.eqb_refl.
  intros [_ H]. discriminate H.
Qed.

(** X5: a mark or an unmark made twice in a row is as good as made
    once: the second [markReady] with the same note, and the second
    [unmarkReady], leave [ready] and [notes] as the first left them. *)
Theorem mark_and_unmark_idempotent h h' file note p :
  (readyOf (fst (markReady h' file note (fst (markReady h file note p))))
   = readyOf (fst (markReady h file note p))
   /\ notesOf (fst (markReady h' file note (fst (markReady h file note p))))
      = notesOf (fst (markReady h file note p)))
  /\ (readyOf (fst (unmarkReady h' file (fst (unmarkReady h file p))))
      = readyOf (fst (unmarkReady h file p))
      /\ notesOf (fst (unmarkReady h' file (fst (unmarkReady h file p))))
         = notesOf (fst (unmarkReady h file p))).
Proof.
  repeat split.
  - rewrite (markReady_ready h'), markReady_ready.
    destruct (includes (path file) (readyOf p)) eqn:E; [now rewrite E|].
    rewrite includes_app. cbn. rewrite String.eqb_refl.
    now rewrite orb_true_r.
  - rewrite (markReady_notes h'), markReady_notes. apply insert_insert_eq.
  - rewrite (unmarkReady_ready h'), unmarkReady_ready. apply filter_out_twice.
  - rewrite (unmarkReady_notes h'), unmarkReady_notes.
    apply delete_id, lookup_delete_eq.
Qed.

(** ** Looking a file up in the snapshot *)

Lemma find_path_Some (fs : list DispatchStatusFile) x sf :
  List.find (fun f => String.eqb (sf_path f) x) fs = Some sf ->
  In sf fs /\ sf_path sf = x.
Proof.
  intros H. apply find_some in H as [Hin Heq].
  apply String.eqb_eq in Heq. tauto.
Qed.

Lemma find_path_unique (fs : list DispatchStatusFile) sf :
  List.NoDup (map sf_path fs) -> In sf fs ->
  List.find (fun f => String.eqb (sf_path f) (sf_path sf)) fs = Some sf.
Proof.
  induction fs as [|f fs IH]; [intros _ []|].
  cbn [map List.find]. intros Hnd Hin. apply NoDup_cons_iff in Hnd as [Hf Hnd].
  destruct Hin as [->|Hin]; [now rewrite String.eqb_refl|].
  destruct (String.eqb_spec (sf_path f) (sf_path sf)) as [E|_]; [|now apply IH].
  exfalso. apply Hf. rewrite E. now apply in_map.
Qed.

(** X6: [getDispatchFileInfo] gives an entry of the snapshot held,
    whose path is the one asked for; it gives nothing exactly when no
    snapshot is held or no entry has that path; and in a snapshot whose
    paths are all different it gives back every entry for its path. *)
Theorem getDispatchFileInfo_lookup p x :
  (forall sf, getDispatchFileInfo p x = Some sf ->
              exists s, dispatchStatus p = Some s /\ In sf (files s)
                        /\ sf_path sf = x)
  /\ (getDispatchFileInfo p x = None <->
      match dispatchStatus p with
      | None => True
      | Some s => forall sf, In sf (files s) -> sf_path sf <> x
      end)
  /\ (forall s sf, dispatchStatus p = Some s ->
                   List.NoDup (map sf_path (files s)) -> In sf (files s) ->
                   getDispatchFileInfo p (sf_path sf) = Some sf).
Proof.
  unfold getDispatchFileInfo. split; [|split].
  - intros sf H. destruct (dispatchStatus p) as [s|]; [|discriminate].
    exists s. split; [reflexivity|]. now apply find_path_Some.
  - destruct (dispatchStatus p) as [s|]; [|tauto]. split.
    + intros Hnone sf Hin Heq.
      apply (find_none _ _ Hnone) in Hin. subst x.
      now rewrite String.eqb_refl in Hin.
    + intros Hall.
      destruct (List.find _ (files s)) as [sf|] eqn:E; [|reflexivity].
      apply find_path_Some in E as [Hin Heq]. now apply Hall in Hin.
  - intros s sf -> Hnd Hin. now apply find_path_unique.
Qed.

Lemma getDispatchFileInfo_lookup_witness :
  getDispatchFileInfo exStale "blog/2024/a.md"
  = Some (mkStatusFile "blog/2024/a.md" "a" (Some "A") None [] 420 true false false
                       1718000000000).
Proof.
  apply (proj2 (proj2 (getDispatchFileInfo_lookup exStale "blog/2024/a.md"))
           (exStatus "2024-06-10T06:00:00.000Z" None)
           (mkStatusFile "blog/2024/a.md" "a" (Some "A") None [] 420 true false
                         false 1718000000000)).
  - reflexivity.
  - cbn. repeat constructor. intros [].
  - cbn. now left.
Defined.

(** ** Recording days *)

Lemma recordWritingDay_dates h p :
  dates (streakData (fst (recordWritingDay h p)))
  = recorded (todayText h) (dates (streakData p))
  /\ publishDates (streakData (fst (recordWritingDay h p)))
     = publishDates (streakData p).
Proof.
  unfold recordWritingDay, recorded.
  destruct (includes _ _); [split; reflexivity|].
  cbn [fst streakData set_streakData dates publishDates]. split; reflexivity.
Qed.

Lemma recordPublishDay_dates h p :
  publishDates (streakData (fst (recordPublishDay h p)))
  = recorded (todayText h) (publishDates (streakData p))
  /\ dates (streakData (fst (recordPublishDay h p))) = dates (streakData p).
Proof.
  unfold recordPublishDay, recorded.
  destruct (includes _ _); [split; reflexivity|].
  cbn [fst streakData set_streakData dates publishDates]. split; reflexivity.
Qed.

Lemma recorded_In day l : In day (recorded day l).
Proof.
  unfold recorded. destruct (includes day l) eqn:E; [now apply includes_In|].
  destruct (_ <? _)%nat; [apply sliceLast_keeps_last; lia|].
  apply in_or_app. right. now left.
Qed.

Lemma recorded_again day l : recorded day (recorded day l) = recorded day l.
Proof.
  unfold recorded at 1.
  now rewrite (proj2 (includes_In day (recorded day l)) (recorded_In day l)).
Qed.

Lemma sliceLast_length n (l : list string) :
  length (sliceLast n l) = Nat.min n (length l).
Proof. unfold sliceLast. rewrite length_skipn. lia. Qed.

Lemma sliceLast_suffix n (l : list string) :
  firstn (length l - n) l ++ sliceLast n l = l.
Proof. apply firstn_skipn. Qed.

Lemma recorded_length day l :
  (length l <= 365 -> length (recorded day l) <= 365)%nat
  /\ (length (recorded day l) <= Nat.max 365 (length l))%nat.
Proof.
  unfold recorded. destruct (includes day l); [lia|].
  destruct (Nat.ltb_spec 365 (length (l ++ [day]))) as [Hlt|Hge].
  - rewrite sliceLast_length. lia.
  - rewrite length_app in *. cbn [length] in *. lia.
Qed.

Lemma recorded_suffix day l :
  ~ In day l ->
  exists dropped,
    l ++ [day] = dropped ++ recorded day l
    /\ length dropped = (length l + 1 - 365)%nat.
Proof.
  intros Hnew. apply includes_false in Hnew. unfold recorded. rewrite Hnew.
  destruct (Nat.ltb_spec 365 (length (l ++ [day]))) as [Hlt|Hge].
  - exists (firstn (length (l ++ [day]) - 365) (l ++ [day])). split.
    + symmetry. apply sliceLast_suffix.
    + rewrite length_firstn, length_app. cbn [length]. lia.
  - exists []. rewrite length_app in Hge. cbn [length] in Hge.
    split; [reflexivity | cbn; lia].
Qed.

Lemma recorded_NoDup day l : List.NoDup l -> List.NoDup (recorded day l).
Proof.
  intros Hnd. unfold recorded. destruct (includes day l) eqn:E; [exact Hnd|].
  apply includes_false in E.
  assert (Hpushed : List.NoDup (l ++ [day])).
  { apply List.NoDup_app; [exact Hnd | repeat constructor; intros [] |].
    intros x Hx [<-|[]]. contradiction. }
  destruct (_ <? _)%nat; [|exact Hpushed].
  rewrite <- (sliceLast_suffix 365 (l ++ [day])) in Hpushed.
  now apply NoDup_app_remove_l in Hpushed.
Qed.

Lemma recordWritingDay_seen h p :
  includes (todayText h) (dates (streakData p)) = true ->
  recordWritingDay h p = (p, []).
Proof. unfold recordWritingDay. now intros ->. Qed.

Lemma recordPublishDay_seen h p :
  includes (todayText h) (publishDates (streakData p)) = true ->
  recordPublishDay h p = (p, []).
Proof. unfold recordPublishDay. now intros ->. Qed.

(** X7: a day is recorded once: after [recordWritingDay] today is in
    [dates] and [publishDates] is as it was, and a second call on the
    same day changes nothing and saves nothing; likewise for
    [recordPublishDay], with the two lists exchanged. *)
Theorem record_once_per_day h h' p :
  todayText h' = todayText h ->
  (In (todayText h) (dates (streakData (fst (recordWritingDay h p))))
   /\ publishDates (streakData (fst (recordWritingDay h p)))
      = publishDates (streakData p)
   /\ recordWritingDay h' (fst (recordWritingDay h p))
      = (fst (recordWritingDay h p), []))
  /\ (In (todayText h) (publishDates (streakData (fst (recordPublishDay h p))))
      /\ dates (streakData (fst (recordPublishDay h p))) = dates (streakData p)
      /\ recordPublishDay h' (fst (recordPublishDay h p))
         = (fst (recordPublishDay h p), [])).
Proof.
  intros Hday.
  destruct (recordWritingDay_dates h p) as [Hw Hw'].
  destruct (recordPublishDay_dates h p) as [Hp Hp'].
  assert (Hinw : In (todayText h) (dates (streakData (fst (recordWritingDay h p)))))
    by (rewrite Hw; apply recorded_In).
  assert (Hinp : In (todayText h)
                    (publishDates (streakData (fst (recordPublishDay h p)))))
    by (rewrite Hp; apply recorded_In).
  repeat split; try assumption.
  - apply recordWritingDay_seen. rewrite Hday. now apply includes_In.
  - apply recordPublishDay_seen. rewrite Hday. now apply includes_In.
Qed.

Lemma record_once_per_day_witness :
  recordWritingDay exHost (fst (recordWritingDay exHost (initialPlugin exSettings)))
  = (fst (recordWritingDay exHost (initialPlugin exSettings)), []).
Proof.
  apply (record_once_per_day exHost exHost (initialPlugin exSettings) eq_refl).
Defined.

(** X8: the lists keep the last 365 entries: a list of at most 365
    entries has at most 365 after a record, a list without repetitions
    stays without, and a day that is new goes to the end while entries
    are dropped from the front, as many as the list then exceeds 365
    by; for [recordWritingDay] on [dates] and for [recordPublishDay] on
    [publishDates]. *)
Theorem record_keeps_last_365 h p :
  ((length (dates (streakData p)) <= 365 ->
    length (dates (streakData (fst (recordWritingDay h p)))) <= 365)%nat
   /\ (List.NoDup (dates (streakData p)) ->
       List.NoDup (dates (streakData (fst (recordWritingDay h p)))))
   /\ (~ In (todayText h) (dates (streakData p)) ->
       exists dropped,
         dates (streakData p) ++ [todayText h]
         = dropped ++ dates (streakData (fst (recordWritingDay h p)))
         /\ length dropped = (length (dates (streakData p)) + 1 - 365)%nat))
  /\ ((length (publishDates (streakData p)) <= 365 ->
       length (publishDates (streakData (fst (recordPublishDay h p)))) <= 365)%nat
      /\ (List.NoDup (publishDates (streakData p)) ->
          List.NoDup (publishDates (streakData (fst (recordPublishDay h p)))))
      /\ (~ In (todayText h) (publishDates (streakData p)) ->
          exists dropped,
            publishDates (streakData p) ++ [todayText h]
            = dropped ++ publishDates (streakData (fst (recordPublishDay h p)))
            /\ length dropped = (length (publishDates (streakData p)) + 1 - 365)%nat)).
Proof.
  rewrite (proj1 (recordWritingDay_dates h p)), (proj1 (recordPublishDay_dates h p)).
  repeat split;
    first [ apply recorded_length | apply recorded_NoDup | apply recorded_suffix ].
Qed.

Lemma record_keeps_last_365_witness :
  (length (dates (streakData (fst (recordWritingDay exHost exVeteran)))) <= 365)%nat
  /\ exists dropped,
       dates (streakData exVeteran) ++ [todayText exHost]
       = dropped ++ dates (streakData (fst (recordWritingDay exHost exVeteran)))
       /\ length dropped = (length (dates (streakData exVeteran)) + 1 - 365)%nat.
Proof.
  destruct (proj1 (record_keeps_last_365 exHost exVeteran)) as (Hlen & _ & Hdrop).
  split.
  - apply Hlen. vm_compute. lia.
  - apply Hdrop. apply includes_false. vm_compute. reflexivity.
Defined.

Example record_drops_oldest :
  length (dates (streakData exVeteran)) = 365%nat
  /\ hd "" (dates (streakData exVeteran)) = "2023-06-11"
  /\ hd "" (dates (streakData (fst (recordWritingDay exHost exVeteran)))) = "2023-06-12"
  /\ List.last (dates (streakData (fst (recordWritingDay exHost exVeteran)))) "" = "2024-06-10".
Proof. vm_compute. repeat split. Qed.

(** ** The writing streak, further *)

Lemma streakLoop_bounds l :
  forall expected streak,
    streak <= streakLoop expected streak l <= streak + Z.of_nat (length l).
Proof.
  induction l as [|s l IH]; intros e n; cbn [streakLoop length]; [lia|].
  destruct (parse_date s) as [d|].
  - destruct (isSame d e).
    + specialize (IH (subtractDay e) (n + 1)). lia.
    + destruct (isBefore d e); [lia|]. specialize (IH e n). lia.
  - specialize (IH e n). lia.
Qed.

Lemma sort_length l : length (rev (sort l)) = length l.
Proof.
  rewrite length_rev. symmetry.
  apply Permutation_length, StringSort.Permuted_sort.
Qed.

Lemma getWritingStreak_le_length h p :
  0 <= getWritingStreak h p <= Z.of_nat (length (dates (streakData p))).
Proof.
  rewrite getWritingStreak_loop.
  pose proof (streakLoop_bounds (rev (sort (dates (streakData p))))
                (today (clock h)) 0) as H.
  now rewrite sort_length, Z.add_0_l in H.
Qed.


Lemma daysBack_add i j d : daysBack (i + j) d = daysBack i (daysBack j d).
Proof. unfold daysBack. apply Nat.iter_add. Qed.

Lemma daysBack_lt i j d : (i < j)%nat -> date_lt (daysBack j d) (daysBack i d).
Proof.
  intros Hij. replace j with (S (j - i - 1) + i)%nat by lia.
  rewrite daysBack_add, daysBack_succ.
  eapply date_le_lt_trans; [apply daysBack_le | apply subtractDay_lt].
Qed.

Lemma daysBack_inj d i j : daysBack i d = daysBack j d -> i = j.
Proof.
  intros E. destruct (Nat.lt_trichotomy i j) as [H|[H|H]]; [|exact H|];
    apply (daysBack_lt _ _ d) in H; rewrite E in H;
    now apply date_lt_irrefl in H.
Qed.

Lemma date_eq_dec (a b : Date) : {a = b} + {a <> b}.
Proof.
  destruct a as [y m d], b as [y' m' d'].
  destruct (Z.eq_dec y y'); [|right; congruence].
  destruct (Z.eq_dec m m'); [|right; congruence].
  destruct (Z.eq_dec d d'); [left | right]; congruence.
Qed.

(** In a list of days the run that ends at [e] stops somewhere. *)
Lemma run_stops (l : list Date) e :
  exists n, (n <= length l)%nat
            /\ (forall i, (i < n)%nat -> In (daysBack i e) l)
            /\ ~ In (daysBack n e) l.
Proof.
  assert (Hk : forall k,
             (exists n, (n < k)%nat
                        /\ (forall i, (i < n)%nat -> In (daysBack i e) l)
                        /\ ~ In (daysBack n e) l)
             \/ (forall i, (i < k)%nat -> In (daysBack i e) l)).
  { induction k as [|k [(n & Hn & Hrun)|Hall]].
    - right. intros i Hi. lia.
    - left. exists n. split; [lia | exact Hrun].
    - destruct (in_dec date_eq_dec (daysBack k e) l) as [Hin|Hout].
      + right. intros i Hi. destruct (Nat.eq_dec i k) as [->|]; [exact Hin|].
        apply Hall. lia.
      + left. exists k. split; [lia|]. split; [exact Hall | exact Hout]. }
  destruct (Hk (S (length l))) as [(n & Hn & Hrun)|Hall].
  - exists n. split; [lia | exact Hrun].
  - exfalso.
    assert (Hlen : (length (map (fun i => daysBack i e) (seq 0 (S (length l))))
                    <= length l)%nat).
    { apply NoDup_incl_length.
      - apply Finite.Injective_map_NoDup; [|apply seq_NoDup].
        intros i j. apply daysBack_inj.
      - intros x Hx. apply in_map_iff in Hx as (i & <- & Hi).
        apply in_seq in Hi. apply Hall. lia. }
    rewrite length_map, length_seq in Hlen. lia.
Qed.

(** The streak is the length of the run of recorded days that ends
    today. *)
Lemma getWritingStreak_run h p :
  Forall dayText (dates (streakData p)) ->
  forall n : nat,
    (forall i, (i < n)%nat ->
               In (format_date (daysBack i (today (clock h)))) (dates (streakData p))) ->
    ~ In (format_date (daysBack n (today (clock h)))) (dates (streakData p)) ->
    getWritingStreak h p = Z.of_nat n.
Proof.
  intros Hiso n Hdays Hgap.
  rewrite getWritingStreak_loop, (streakLoop_walk _ (sort_dayText _ Hiso)).
  rewrite (walk_run _ _ 0 n (sort_days_sorted _ Hiso)); [lia| |].
  - intros i Hi. apply sort_days_In, (dayText_In _ _ Hiso), Hdays, Hi.
  - intros Hin. apply Hgap. now apply (dayText_In _ _ Hiso), sort_days_In.
Qed.

Lemma getWritingStreak_run_exists h p :
  Forall dayText (dates (streakData p)) ->
  exists n : nat,
    (forall i, (i < n)%nat ->
               In (format_date (daysBack i (today (clock h)))) (dates (streakData p)))
    /\ ~ In (format_date (daysBack n (today (clock h)))) (dates (streakData p))
    /\ getWritingStreak h p = Z.of_nat n.
Proof.
  intros Hiso.
  destruct (run_stops (map dayOf (dates (streakData p))) (today (clock h)))
    as (n & _ & Hrun & Hgap).
  assert (Hmem : forall d, In d (map dayOf (dates (streakData p)))
                           <-> In (format_date d) (dates (streakData p))).
  { intros d. rewrite <- (dayText_In _ d Hiso), in_map_iff.
    split; intros (s & H1 & H2); exists s; tauto. }
  exists n. assert (Hdays : forall i, (i < n)%nat ->
              In (format_date (daysBack i (today (clock h)))) (dates (streakData p)))
    by (intros i Hi; apply Hmem, Hrun, Hi).
  assert (Hstop : ~ In (format_date (daysBack n (today (clock h))))
                       (dates (streakData p)))
    by (intros Hin; apply Hgap, Hmem, Hin).
  split; [exact Hdays|]. split; [exact Hstop|].
  now apply getWritingStreak_run.
Qed.

(** X10: on a list of "YYYY-MM-DD" days the streak is positive exactly
    when today is in the list, and it depends only on which days the
    list holds, not on their order or on repetitions. *)
Theorem getWritingStreak_by_membership h p q :
  forallb isoDay (dates (streakData p)) = true ->
  (0 < getWritingStreak h p <-> In (todayText h) (dates (streakData p)))
  /\ (forallb isoDay (dates (streakData q)) = true ->
      (forall s, In s (dates (streakData p)) <-> In s (dates (streakData q))) ->
      getWritingStreak h q = getWritingStreak h p).
Proof.
  intros Hiso. apply isoDay_all in Hiso.
  destruct (getWritingStreak_run_exists h p Hiso) as (n & Hdays & Hgap & Hn).
  split.
  - rewrite Hn. split.
    + intros Hpos. apply (Hdays 0%nat). lia.
    + intros Hin. destruct n as [|n]; [contradiction | lia].
  - intros Hisoq Hsame. apply isoDay_all in Hisoq. rewrite Hn.
    apply (getWritingStreak_run h q Hisoq).
    + intros i Hi. apply Hsame, Hdays, Hi.
    + intros Hin. apply Hgap, Hsame, Hin.
Qed.

Lemma getWritingStreak_by_membership_witness :
  (0 < getWritingStreak exHost exWriter <-> In (todayText exHost) exDates)
  /\ getWritingStreak exHost
       (set_streakData (mkStreak (rev exDates ++ exDates) []) (initialPlugin exSettings))
     = getWritingStreak exHost exWriter.
Proof.
  destruct (getWritingStreak_by_membership exHost exWriter
              (set_streakData (mkStreak (rev exDates ++ exDates) [])
                              (initialPlugin exSettings)) eq_refl) as [Hpos Hsame].
  split; [exact Hpos|]. apply Hsame; [reflexivity|].
  intros s. cbn [dates streakData set_streakData exWriter].
  rewrite in_app_iff, <- in_rev. tauto.
Defined.

Lemma recorded_incl day l x : In x (recorded day l) -> In x l \/ x = day.
Proof.
  unfold recorded. destruct (includes day l); [tauto|].
  assert (Hpushed : In x (l ++ [day]) -> In x l \/ x = day).
  { intros H. apply in_app_or in H as [H|[<-|[]]]; tauto. }
  destruct (_ <? _)%nat; [|exact Hpushed].
  intros H. apply Hpushed. rewrite <- (sliceLast_suffix 365 (l ++ [day])).
  apply in_or_app. now right.
Qed.

(** X11: recording the day starts or continues the streak, and the cap
    on the history caps the streak: on a list of at most 365
    "YYYY-MM-DD" days, after [recordWritingDay] the writing streak is at
    least 1 and at most 365. *)
Theorem recordWritingDay_streak h p :
  validDate (today (clock h)) = true ->
  forallb isoDay (dates (streakData p)) = true ->
  (length (dates (streakData p)) <= 365)%nat ->
  1 <= getWritingStreak h (fst (recordWritingDay h p)) <= 365.
Proof.
  intros Hvalid Hiso Hlen.
  destruct (recordWritingDay_dates h p) as [Hdates _].
  assert (Hiso' : Forall dayText (dates (streakData (fst (recordWritingDay h p))))).
  { rewrite Hdates. apply List.Forall_forall. intros x Hx.
    apply recorded_incl in Hx as [Hx| ->].
    - apply isoDay_all in Hiso. rewrite List.Forall_forall in Hiso. now apply Hiso.
    - exists (today (clock h)). now split. }
  split.
  - destruct (getWritingStreak_run_exists h _ Hiso') as (n & Hdays & Hgap & ->).
    destruct n as [|n]; [|lia]. exfalso. apply Hgap.
    rewrite Hdates. apply recorded_In.
  - pose proof (getWritingStreak_le_length h (fst (recordWritingDay h p))) as Hb.
    rewrite Hdates in Hb.
    pose proof (proj1 (recorded_length (todayText h) (dates (streakData p))) Hlen).
    lia.
Qed.

Lemma recordWritingDay_streak_witness :
  1 <= getWritingStreak exHost (fst (recordWritingDay exHost exVeteran)) <= 365.
Proof.
  apply (recordWritingDay_streak exHost exVeteran).
  - reflexivity.
  - vm_compute. reflexivity.
  - vm_compute. lia.
Defined.

(** A year of days and today: the oldest day has gone, and the streak
    is 365, not 366. *)
Example veteran_streak :
  getWritingStreak exHost (fst (recordWritingDay exHost exVeteran)) = 365.
Proof. vm_compute. reflexivity. Qed.

(** ** The publish streak *)

Section PublishStreak.

Variable startOfWeek : Date -> Date.
Variable format_week : Date -> string.

Local Abbreviation weekBefore := (Nat.iter 7 subtractDay).
Local Abbreviation publishStreak := (getPublishStreak startOfWeek format_week).

Lemma publishLoop_run i :
  forall weekSet currentWeek streak (n : nat),
    (n <= i)%nat ->
    (forall j, (j < n)%nat ->
               In (format_week (Nat.iter j weekBefore currentWeek)) weekSet) ->
    ((n < i)%nat -> ~ In (format_week (Nat.iter n weekBefore currentWeek)) weekSet) ->
    publishLoop format_week i weekSet currentWeek streak = streak + Z.of_nat n.
Proof.
  induction i as [|i IH]; intros ws cw s n Hn Hrun Hgap; cbn [publishLoop].
  - replace n with 0%nat by lia. cbn. lia.
  - destruct (includes (format_week cw) ws) eqn:E.
    + destruct n as [|n].
      * exfalso. apply (Hgap ltac:(lia)). now apply includes_In.
      * rewrite (IH ws (weekBefore cw) (s + 1) n); [lia | lia | |].
        -- intros j Hj. rewrite <- Nat.iter_succ_r. apply Hrun. lia.
        -- intros Hlt. rewrite <- Nat.iter_succ_r. apply Hgap. lia.
    + destruct n as [|n]; [cbn; lia|]. exfalso.
      apply includes_false in E. apply E, (Hrun 0%nat). lia.
Qed.

Lemma publishLoop_bounds i :
  forall weekSet currentWeek streak,
    streak <= publishLoop format_week i weekSet currentWeek streak
    <= streak + Z.of_nat i.
Proof.
  induction i as [|i IH]; intros ws cw s; cbn [publishLoop]; [lia|].
  destruct (includes _ _); [|lia].
  specialize (IH ws (weekBefore cw) (s + 1)). lia.
Qed.

Lemma weeks_In p w :
  In w (map (weekOf startOfWeek format_week)
            (rev (sort (publishDates (streakData p)))))
  <-> exists d, In d (publishDates (streakData p))
                /\ weekOf startOfWeek format_week d = w.
Proof.
  rewrite in_map_iff. split; intros (d & H1 & H2); exists d.
  - split; [|exact H1]. apply in_rev in H2.
    eapply Permutation_in; [symmetry; apply StringSort.Permuted_sort | exact H2].
  - split; [exact H2|]. apply in_rev. rewrite rev_involutive.
    eapply Permutation_in; [apply StringSort.Permuted_sort | exact H1].
Qed.


End PublishStreak.

Example publish_streak_two_weeks :
  getPublishStreak exStartOfWeek exFormatWeek exHost
    (set_streakData (mkStreak [] ["2024-05-20"; "2024-06-10"; "2024-06-03"])
                    (initialPlugin exSettings)) = 2.
Proof. reflexivity. Qed.


(** ** Milestones, further *)

Lemma firstMilestone_next written last ms :
  StronglySorted Z.lt ms ->
  firstMilestone written last ms =
  match List.find (fun m => last <? m) ms with
  | Some m => if m <=? written then Some m else None
  | None => None
  end.
Proof.
  induction 1 as [|m ms Hsorted IH Habove]; [reflexivity|].
  cbn [firstMilestone List.find].
  destruct (Z.ltb_spec last m) as [Hlt|Hge].
  - destruct (Z.leb_spec m written) as [Hle|Hgt]; [reflexivity|].
    cbn [andb]. rewrite IH.
    destruct (List.find _ ms) as [m'|] eqn:E; [|reflexivity].
    apply find_some in E as [Hin _].
    rewrite List.Forall_forall in Habove. apply Habove in Hin.
    destruct (Z.leb_spec m' written); [lia | reflexivity].
  - rewrite andb_false_r. exact IH.
Qed.

Lemma milestones_sorted : StronglySorted Z.lt milestones.
Proof. repeat constructor; lia. Qed.

(** X13: a call of [checkSessionMilestones] goes one milestone at a
    time: with celebrations disabled it changes nothing; otherwise it
    sets the words of the session, never below 0, and celebrates the
    lowest milestone above the last one celebrated when the words have
    reached that one, with one notice, and nothing otherwise, however
    many milestones the words have passed. *)
Theorem checkSessionMilestones_one_step h p :
  (celebrateMilestones (settings p) = false -> checkSessionMilestones h p = (p, []))
  /\ (celebrateMilestones (settings p) = true ->
      sessionWordsWritten (fst (checkSessionMilestones h p))
      = Z.max 0 (getTotalBlogWords h p - sessionStartWordCount p)
      /\ 0 <= sessionWordsWritten (fst (checkSessionMilestones h p))
      /\ match nextMilestone (lastMilestoneCelebrated p) with
         | Some m =>
             if m <=? Z.max 0 (getTotalBlogWords h p - sessionStartWordCount p)
             then lastMilestoneCelebrated (fst (checkSessionMilestones h p)) = m
                  /\ snd (checkSessionMilestones h p) = [Notice (celebrations m)]
             else lastMilestoneCelebrated (fst (checkSessionMilestones h p))
                  = lastMilestoneCelebrated p
                  /\ snd (checkSessionMilestones h p) = []
         | None =>
             lastMilestoneCelebrated (fst (checkSessionMilestones h p))
             = lastMilestoneCelebrated p
             /\ snd (checkSessionMilestones h p) = []
         end).
Proof.
  unfold checkSessionMilestones, nextMilestone. split; [now intros ->|].
  intros ->. cbn [negb sessionWordsWritten set_sessionWordsWritten
                  lastMilestoneCelebrated].
  rewrite (firstMilestone_next _ _ _ milestones_sorted).
  destruct (List.find _ milestones) as [m|].
  - destruct (m <=? _); cbn; (split; [reflexivity|]); (split; [lia|]);
      split; reflexivity.
  - cbn. split; [reflexivity|]. split; [lia|]. split; reflexivity.
Qed.

Lemma checkSessionMilestones_one_step_witness :
  lastMilestoneCelebrated
    (fst (checkSessionMilestones exHost (arrive (exEvent 5200) exMidSession))) = 500
  /\ snd (checkSessionMilestones exHost (arrive (exEvent 5200) exMidSession))
     = [Notice (celebrations 500)].
Proof.
  destruct (proj2 (checkSessionMilestones_one_step exHost
                     (arrive (exEvent 5200) exMidSession)) eq_refl)
    as (_ & _ & Hstep).
  exact Hstep.
Defined.

Lemma milestonesLeft_less last m :
  last < m -> In m milestones -> (milestonesLeft m < milestonesLeft last)%nat.
Proof.
  unfold milestonesLeft. generalize milestones as ms.
  intros ms Hlt Hin.
  assert (Hle : forall l,
             (length (List.filter (fun x => Z.ltb m x) l)
              <= length (List.filter (fun x => Z.ltb last x) l))%nat).
  { induction l as [|x l IH]; [reflexivity|]. cbn [List.filter].
    destruct (Z.ltb_spec m x); destruct (Z.ltb_spec last x); cbn [length]; lia. }
  induction ms as [|x ms IH]; [destruct Hin|]. cbn [List.filter].
  destruct Hin as [->|Hin].
  - rewrite Z.ltb_irrefl. destruct (Z.ltb_spec last m); [|lia].
    cbn [length]. specialize (Hle ms). lia.
  - specialize (IH Hin).
    destruct (Z.ltb_spec m x); destruct (Z.ltb_spec last x); cbn [length]; lia.
Qed.

Lemma session_fst_cons e rest p :
  fst (session (e :: rest) p) =
  fst (session rest (fst (checkSessionMilestones (ev_host e) (arrive e p)))).
Proof. cbn [session]. now destruct (session rest _). Qed.

Lemma session_budget events :
  forall p,
    (length (List.filter fired (snd (session events p)))
     + milestonesLeft (lastMilestoneCelebrated (fst (session events p)))
     <= milestonesLeft (lastMilestoneCelebrated p))%nat.
Proof.
  induction events as [|e rest IH]; intros p; [cbn; lia|].
  rewrite session_cons, session_fst_cons.
  pose proof (checkSessionMilestones_last (ev_host e) (arrive e p)) as Hstep.
  cbv zeta in Hstep.
  change (lastMilestoneCelebrated (arrive e p)) with (lastMilestoneCelebrated p)
    in Hstep.
  specialize (IH (fst (checkSessionMilestones (ev_host e) (arrive e p)))).
  cbn [List.filter].
  destruct (celebrated _ _) as [m|]; cbn [fired length].
  - destruct Hstep as (Hlt & Hlast & Hin & _). rewrite Hlast in IH.
    pose proof (milestonesLeft_less _ _ Hlt Hin). lia.
  - rewrite Hstep in IH. exact IH.
Qed.

(** X14: a session celebrates at most nine times, whatever the events
    and the state it starts from, and no more times than there are
    milestones above the last one celebrated at its start. *)
Theorem session_celebrates_at_most_nine events p :
  (length (List.filter fired (snd (session events p)))
   <= milestonesLeft (lastMilestoneCelebrated p))%nat
  /\ (length (List.filter fired (snd (session events p))) <= 9)%nat.
Proof.
  pose proof (session_budget events p) as H.
  assert (Hnine : (milestonesLeft (lastMilestoneCelebrated p) <= 9)%nat).
  { unfold milestonesLeft. etransitivity; [apply List.filter_length_le|].
    reflexivity. }
  lia.
Qed.

(** A session that opens on 6000 words celebrates every milestone in
    turn, one event at a time, and then is silent. *)
Example session_catches_up :
  snd (session (repeat (exEvent 6000) 11) (initialPlugin exSettings))
  = [Some 100; Some 250; Some 500; Some 750; Some 1000; Some 1500; Some 2000;
     Some 3000; Some 5000; None; None].
Proof. reflexivity. Qed.

(** ** The day's count, once computed *)

(** X15: the count of the day is computed once a day: after a call of
    [getDailyWordCount], every later call on the same day gives the
    same number and leaves the plugin as it is, whatever has happened
    to the vault, to the clock within the day, and to the snapshot
    held. *)
Theorem getDailyWordCount_frozen_for_the_day h h' p status :
  todayText h' = todayText h ->
  getDailyWordCount h' (set_dispatchStatus status (fst (getDailyWordCount h p)))
  = (set_dispatchStatus status (fst (getDailyWordCount h p)),
     snd (getDailyWordCount h p)).
Proof.
  intros Hday. unfold getDailyWordCount at 1. rewrite Hday.
  unfold getDailyWordCount.
  destruct (String.eqb_spec (dailyWordCountDate p) (todayText h)) as [E|_];
    cbn [fst snd dailyWordCountDate dailyWordCountCache set_dispatchStatus
         set_dailyWordCount].
  - rewrite E. now rewrite String.eqb_refl.
  - now rewrite String.eqb_refl.
Qed.

Lemma getDailyWordCount_frozen_for_the_day_witness :
  getDailyWordCount exFivePosts
    (set_dispatchStatus (Some (exStatus "2024-06-10T06:12:20.000Z" None))
       (fst (getDailyWordCount exHost (initialPlugin exSettings))))
  = (set_dispatchStatus (Some (exStatus "2024-06-10T06:12:20.000Z" None))
       (fst (getDailyWordCount exHost (initialPlugin exSettings))),
     snd (getDailyWordCount exHost (initialPlugin exSettings))).
Proof.
  apply (getDailyWordCount_frozen_for_the_day exHost exFivePosts
           (initialPlugin exSettings)). reflexivity.
Defined.

(** ** Counting drafts and published posts *)

Lemma countLoop_from (fs : list TFile) a b :
  fold_left (fun '(published, drafts) file =>
               if hasPublishedUrl file then (published + 1, drafts)
               else (published, drafts + 1)) fs (a, b)
  = (a + Z.of_nat (length (List.filter hasPublishedUrl fs)),
     b + Z.of_nat (length (List.filter (fun f => negb (hasPublishedUrl f)) fs))).
Proof.
  revert a b. induction fs as [|f fs IH]; intros a b; cbn [fold_left List.filter].
  - cbn. f_equal; lia.
  - destruct (hasPublishedUrl f); rewrite IH; cbn [negb length]; f_equal; lia.
Qed.

Lemma countLoop_counts fs :
  countLoop fs
  = (Z.of_nat (length (List.filter hasPublishedUrl fs)),
     Z.of_nat (length (List.filter (fun f => negb (hasPublishedUrl f)) fs))).
Proof. unfold countLoop. now rewrite countLoop_from. Qed.

Lemma filter_split_length {A} (f : A -> bool) l :
  (length (List.filter f l) + length (List.filter (fun x => negb (f x)) l)
   = length l)%nat.
Proof.
  induction l as [|x l IH]; [reflexivity|]. cbn [List.filter].
  destruct (f x); cbn [negb length]; lia.
Qed.

Section OverviewProperties.

Variable Date_getTime : string -> option Z.

(** X16: the overview takes the counts of the snapshot when it is
    fresh, as they are; otherwise it counts the blog files of the
    vault: published are those whose front matter has a
    [published_url], drafts are the others, the two add up to the
    number of blog files, and the total of words is 0. *)
Theorem overviewCounts_sources h p :
  (forall s, dispatchStatus p = Some s ->
             isDispatchFresh Date_getTime h p = true ->
             overviewCounts Date_getTime h p
             = mkOverview (stats_drafts (stats s)) (stats_published (stats s))
                          (stats_total_words (stats s)))
  /\ (isDispatchFresh Date_getTime h p = false ->
      ov_published (overviewCounts Date_getTime h p)
      = Z.of_nat (length (List.filter hasPublishedUrl (blogFiles h p)))
      /\ ov_drafts (overviewCounts Date_getTime h p)
         = Z.of_nat (length (List.filter (fun f => negb (hasPublishedUrl f))
                                         (blogFiles h p)))
      /\ ov_drafts (overviewCounts Date_getTime h p)
         + ov_published (overviewCounts Date_getTime h p)
         = Z.of_nat (length (blogFiles h p))
      /\ ov_totalWords (overviewCounts Date_getTime h p) = 0).
Proof.
  unfold overviewCounts. rewrite countLoop_counts. split.
  - intros s -> ->. reflexivity.
  - intros Hstale.
    pose proof (filter_split_length hasPublishedUrl (blogFiles h p)) as Hsum.
    destruct (dispatchStatus p) as [s|]; [rewrite Hstale|];
      cbn [ov_drafts ov_published ov_totalWords];
      (split; [reflexivity|]); (split; [reflexivity|]); (split; [lia|reflexivity]).
Qed.

End OverviewProperties.

Lemma overviewCounts_sources_witness :
  overviewCounts isoTime exFivePosts
    (set_dispatchStatus (Some (exStatus "2024-06-10T06:12:20.000Z" None))
                        (initialPlugin exSettings))
  = mkOverview 3 7 15000
  /\ ov_drafts (overviewCounts isoTime exFivePosts (initialPlugin exSettings))
     + ov_published (overviewCounts isoTime exFivePosts (initialPlugin exSettings))
     = Z.of_nat (length (blogFiles exFivePosts (initialPlugin exSettings))).
Proof.
  split.
  - apply (proj1 (overviewCounts_sources isoTime exFivePosts
                    (set_dispatchStatus
                       (Some (exStatus "2024-06-10T06:12:20.000Z" None))
                       (initialPlugin exSettings)))
             (exStatus "2024-06-10T06:12:20.000Z" None)); reflexivity.
  - destruct (proj2 (overviewCounts_sources isoTime exFivePosts
                       (initialPlugin exSettings)) eq_refl) as (_ & _ & Hsum & _).
    exact Hsum.
Defined.

(** The scenario of the design document: five posts, two published. *)
Example five_posts_two_live :
  overviewCounts isoTime exFivePosts (initialPlugin exSettings) = mkOverview 3 2 0
  /\ updateStatusBar_first true exFivePosts (initialPlugin exSettings)
     = [SetText "3 drafts · 2 live";
        SetAttribute "aria-label"
          "Dispatch: 3 unpublished drafts, 2 published posts"].
Proof. split; vm_compute; reflexivity. Qed.

(** X17: the first version's status bar: with no bar nothing is
    written; with no blog file the text is emptied and the label is
    left alone; otherwise the text and the label carry the numbers of
    drafts and of published posts, which add up to the number of blog
    files. *)
Theorem updateStatusBar_first_counts h p :
  updateStatusBar_first false h p = []
  /\ (blogFiles h p = [] -> updateStatusBar_first true h p = [SetText ""])
  /\ (blogFiles h p <> [] ->
      exists drafts published,
        updateStatusBar_first true h p
        = [SetText (pretty drafts +:+ " drafts · " +:+ pretty published +:+ " live");
           SetAttribute "aria-label"
             ("Dispatch: " +:+ pretty drafts +:+ " unpublished drafts, "
              +:+ pretty published +:+ " published posts")]
        /\ published = Z.of_nat (length (List.filter hasPublishedUrl (blogFiles h p)))
        /\ drafts + published = Z.of_nat (length (blogFiles h p))).
Proof.
  unfold updateStatusBar_first. split; [reflexivity|]. split.
  - intros ->. reflexivity.
  - intros Hsome. cbn [negb]. rewrite countLoop_counts.
    pose proof (filter_split_length hasPublishedUrl (blogFiles h p)) as Hsum.
    destruct (blogFiles h p) as [|f fs] eqn:E; [contradiction|].
    cbn [length Nat.eqb].
    exists (Z.of_nat (length (List.filter (fun x => negb (hasPublishedUrl x))
                                          (f :: fs)))),
           (Z.of_nat (length (List.filter hasPublishedUrl (f :: fs)))).
    split; [reflexivity|]. split; [reflexivity|].
    cbn [length] in Hsum. lia.
Qed.

Lemma updateStatusBar_first_counts_witness :
  exists drafts published,
    updateStatusBar_first true exFivePosts (initialPlugin exSettings)
    = [SetText (pretty drafts +:+ " drafts · " +:+ pretty published +:+ " live");
       SetAttribute "aria-label"
         ("Dispatch: " +:+ pretty drafts +:+ " unpublished drafts, "
          +:+ pretty published +:+ " published posts")]
    /\ published
       = Z.of_nat (length (List.filter hasPublishedUrl
                                       (blogFiles exFivePosts (initialPlugin exSettings))))
    /\ drafts + published
       = Z.of_nat (length (blogFiles exFivePosts (initialPlugin exSettings))).
Proof.
  apply (proj2 (proj2 (updateStatusBar_first_counts exFivePosts
                         (initialPlugin exSettings)))).
  discriminate.
Defined.

(** ** Polling the status file *)

Section Polling.

Variable JSON_parse : string -> option DispatchStatus.
Variable startOfWeek : Date -> Date.
Variable format_week : Date -> string.

Local Abbreviation poll := (loadDispatchStatus JSON_parse startOfWeek format_week).
Local Abbreviation celebration := (celebratePublish startOfWeek format_week).
Local Abbreviation reads := (reads JSON_parse).
Local Abbreviation garbled := (garbled JSON_parse).

Lemma recordPublishDay_settings h p :
  settings (fst (recordPublishDay h p)) = settings p.
Proof. unfold recordPublishDay. now destruct (includes _ _). Qed.

Lemma celebratePublish_settings h slug p :
  settings (fst (celebration h slug p)) = settings p.
Proof. rewrite celebratePublish_fst. apply recordPublishDay_settings. Qed.

Lemma poll_reads h p s :
  reads h s ->
  dispatchStatus (fst (poll h p)) = Some s
  /\ settings (fst (poll h p)) = settings p.
Proof.
  intros (file & content & Hfile & Hdata & Hparse).
  unfold loadDispatchStatus. rewrite Hfile, Hdata, Hparse.
  destruct (truthy _ && _ && _).
  - destruct (last_publish s) as [slug|]; [|split; reflexivity].
    pose proof (celebratePublish_settings h slug p) as Hset.
    destruct (celebration h slug p) as [p1 shown]. split; [reflexivity | exact Hset].
  - split; reflexivity.
Qed.

Lemma poll_same h p s :
  reads h s -> dispatchStatus p = Some s -> poll h p = (p, []).
Proof.
  intros (file & content & Hfile & Hdata & Hparse) Hheld.
  unfold loadDispatchStatus. rewrite Hfile, Hdata, Hparse, Hheld.
  assert (Hsame : differs (last_publish s) (last_publish s) = false).
  { unfold differs. destruct (last_publish s); [|reflexivity].
    now rewrite String.eqb_refl. }
  rewrite Hsame, andb_false_r. f_equal.
  destruct p. cbn in *. now subst.
Qed.

(** X18: a publish is celebrated once: when a poll has read the status
    file, a later poll that reads the same snapshot shows nothing and
    leaves the plugin as it is. *)
Theorem poll_again_is_silent h h' p s :
  reads h s -> reads h' s ->
  poll h' (fst (poll h p)) = (fst (poll h p), []).
Proof.
  intros Hfirst Hsecond. apply (poll_same h' _ s Hsecond).
  apply (poll_reads h p s Hfirst).
Qed.


End Polling.

Lemma poll_again_is_silent_witness :
  exRefresh (Some "new-post") (fst (exRefresh (Some "new-post") (exHolding exSettings)))
  = (fst (exRefresh (Some "new-post") (exHolding exSettings)), []).
Proof.
  apply (poll_again_is_silent
           (parseOnly "status file text" (exNewStatus (Some "new-post")))
           exStartOfWeek exFormatWeek exHostWithStatus exHostWithStatus
           (exHolding exSettings) (exNewStatus (Some "new-post")));
    exists exStatusFile, "status file text"; repeat split.
Defined.


(** The three polls of that example: the publish is celebrated, the
    garbled file is passed over in silence, the publish is celebrated
    again, and the publish day is saved once. *)
Example three_polls :
  map (fun h => snd (loadDispatchStatus
                       (parseOnly "status file text" (exNewStatus (Some "new-post")))
                       exStartOfWeek exFormatWeek h
                       (fst (exRefresh (Some "new-post") (exHolding exSettings)))))
      [exHostWithStatus; exHostGarbled]
  = [[]; []]
  /\ snd (exRefresh (Some "new-post")
            (fst (loadDispatchStatus
                    (parseOnly "status file text" (exNewStatus (Some "new-post")))
                    exStartOfWeek exFormatWeek exHostGarbled
                    (fst (exRefresh (Some "new-post") (exHolding exSettings))))))
     = [Notice ("Published: new-post" +:+ newline
                +:+ "Almost there — only 1 draft left.")].
Proof. split; vm_compute; reflexivity. Qed.

(** ** Front matter *)


Section PublishStatusProperties.

Variable toLocaleString : Z -> string.

Local Abbreviation statusLines := (publishStatusLines toLocaleString).

Lemma second_kept_app (l x : list string) v :
  l !! 1%nat = Some v -> (l ++ x) !! 1%nat = Some v.
Proof. intros H. now apply lookup_app_l_Some. Qed.

Lemma second_kept_if (c : bool) (l x : list string) v :
  l !! 1%nat = Some v -> (if c then l ++ x else l) !! 1%nat = Some v.
Proof. destruct c; [apply second_kept_app | tauto]. Qed.

(** The second line of the status is the line on visibility. *)
Lemma publishStatusLines_second p file fm :
  statusLines p file fm !! 1%nat =
  Some (if fmTruthy (fmGet fm "password")
           || match getDispatchFileInfo p (path file) with
              | Some info => sf_has_password info
              | None => false
              end
        then "Protected (password required)"
        else if fmTruthy (fmGet fm "unlisted")
                || match getDispatchFileInfo p (path file) with
                   | Some info => sf_unlisted info
                   | None => false
                   end
        then "Unlisted (link only)"
        else "Public (will appear in listings)").
Proof.
  unfold publishStatusLines. cbv zeta.
  destruct (getDispatchFileInfo p (path file)) as [info|]; cbv beta iota;
    repeat first [apply second_kept_if | apply second_kept_app];
    repeat match goal with
           | |- context [match ?x with _ => _ end] => destruct x
           end;
    reflexivity.
Qed.

(** X21: a password set through the plugin implies unlisted, and taking
    the password away does not undo that: [promptPassword] with no
    password or an empty one changes nothing; with a password it sets
    it and sets [unlisted], and the status then shows the post as
    protected; after [removeFrontmatterKey] on "password" the password
    is gone, [unlisted] is still [true], and the status does not show
    the post as public. *)
Theorem password_implies_unlisted pw fm p file :
  promptPassword None fm = (fm, [])
  /\ promptPassword (Some "") fm = (fm, [])
  /\ (pw <> "" ->
      let fm1 := fst (promptPassword (Some pw) fm) in
      let fm2 := fst (removeFrontmatterKey "password" fm1) in
      fm1 !! "password" = Some (FMString pw)
      /\ fm1 !! "unlisted" = Some (FMBool true)
      /\ statusLines p file (Some fm1) !! 1%nat = Some "Protected (password required)"
      /\ fm2 !! "password" = None
      /\ fm2 !! "unlisted" = Some (FMBool true)
      /\ statusLines p file (Some fm2) !! 1%nat
         <> Some "Public (will appear in listings)").
Proof.
  split; [reflexivity|]. split; [reflexivity|].
  intros Hpw. cbv zeta. unfold promptPassword.
  destruct (String.eqb_spec pw "") as [|_]; [contradiction|]. cbn [fst].
  assert (H1p : (<["unlisted" := FMBool true]> (<["password" := FMString pw]> fm))
                  !! "password" = Some (FMString pw)).
  { rewrite lookup_insert_ne by discriminate. apply lookup_insert_eq. }
  assert (H1u : (<["unlisted" := FMBool true]> (<["password" := FMString pw]> fm))
                  !! "unlisted" = Some (FMBool true)) by apply lookup_insert_eq.
  split; [exact H1p|]. split; [exact H1u|]. split.
  - rewrite publishStatusLines_second. cbn [fmGet]. rewrite H1p. cbn [fmTruthy].
    destruct (String.eqb_spec pw ""); [contradiction | reflexivity].
  - unfold removeFrontmatterKey. rewrite H1p. cbn [fst].
    assert (H2u : delete "password"
                    (<["unlisted" := FMBool true]> (<["password" := FMString pw]> fm))
                    !! "unlisted" = Some (FMBool true)).
    { rewrite lookup_delete_ne by discriminate. exact H1u. }
    split; [apply lookup_delete_eq|]. split; [exact H2u|].
    rewrite publishStatusLines_second. cbn [fmGet]. rewrite H2u.
    cbn [fmTruthy]. rewrite lookup_delete_eq. cbn [fmTruthy orb].
    destruct (match getDispatchFileInfo p (path file) with
              | Some info => sf_has_password info
              | None => false
              end); discriminate.
Qed.

End PublishStatusProperties.

Lemma password_implies_unlisted_witness :
  publishStatusLines pretty (initialPlugin exSettings) exPost
    (Some (fst (removeFrontmatterKey "password"
                  (fst (promptPassword (Some "s3cret") exFrontmatter)))))
    !! 1%nat
  <> Some "Public (will appear in listings)".
Proof.
  apply (proj2 (proj2 (password_implies_unlisted pretty "s3cret" exFrontmatter
                         (initialPlugin exSettings) exPost))).
  discriminate.
Defined.

Example status_after_password :
  publishStatusLines pretty exStale exPost
    (Some (fst (promptPassword (Some "s3cret") exFrontmatter)))
  = ["Not published"; "Protected (password required)"; "Word count: 420"]
  /\ publishStatusLines pretty exStale exPost
       (Some (fst (removeFrontmatterKey "password"
                     (fst (promptPassword (Some "s3cret") exFrontmatter)))))
     = ["Not published"; "Unlisted (link only)"; "Word count: 420"]
  /\ publishStatusLines pretty exQueued exPost None
     = ["Not published"; "Public (will appear in listings)";
        "Missing date (Dispatch will warn)"; "Marked ready to publish"].
Proof. repeat split; vm_compute; reflexivity. Qed.

(** ** Creating a post *)

Section NewPostProperties.

Variable moment_format : Clock -> string -> string.
Variable trim : string -> string.

Local Abbreviation create := (createBlogPostFromModal moment_format trim).
Local Abbreviation pathOf := (postPath moment_format).
Local Abbreviation folderOf := (postFolder moment_format).
Local Abbreviation contentOf := (postContent moment_format trim).

Lemma create_effects t view h opts p :
  getAbstractFileByPath h (pathOf h p opts) = None ->
  snd (create t view h opts p) =
  match getAbstractFileByPath h (folderOf h p) with
  | None => [PostCreateFolder (folderOf h p)]
  | Some _ => []
  end
  ++ [PostCreate (pathOf h p opts) (contentOf h t opts);
      PostOpenFile (pathOf h p opts)]
  ++ (if view then [PostCursorToLastLine] else [])
  ++ [PostNotice ("Created " +:+ opt_slug opts)]
  ++ map PostStreak (if enableStreaks (settings p)
                     then snd (recordWritingDay h p) else [])
  /\ fst (create t view h opts p) =
     if enableStreaks (settings p) then fst (recordWritingDay h p) else p.
Proof.
  intros Hfree. unfold createBlogPostFromModal. rewrite Hfree.
  destruct (enableStreaks (settings p)); [|split; reflexivity].
  destruct (recordWritingDay h p) as [p' saved]. split; reflexivity.
Qed.


End NewPostProperties.


(** A protected post with two tags, created in a vault that has no
    folder for the year. *)
Example create_protected_post :
  createBlogPostFromModal exMomentFormat (fun s => s) exTemplate true exHost
    (exOptions "b") (initialPlugin exSettings)
  = (set_streakData (mkStreak ["2024-06-10"] []) (initialPlugin exSettings),
     [PostCreateFolder "blog/2024";
      PostCreate "blog/2024/b.md"
        ("---" +:+ newline +:+ "date: 2024-06-10T06:13:20+00:00" +:+ newline
         +:+ "tags: [" +:+ quote +:+ "life" +:+ quote +:+ ", " +:+ quote +:+ "notes"
         +:+ quote +:+ "]" +:+ newline +:+ "unlisted: true" +:+ newline
         +:+ "password: " +:+ quote +:+ "s3cret" +:+ quote +:+ newline +:+ "---"
         +:+ newline +:+ newline +:+ "# A new day" +:+ newline +:+ newline);
      PostOpenFile "blog/2024/b.md";
      PostCursorToLastLine;
      PostNotice "Created b";
      PostStreak (SaveData (mkStreak ["2024-06-10"] []))]).
Proof. vm_compute. reflexivity. Qed.

(** ** The form of a new post *)

Lemma trimStart_head s : headWhite (trimStart s) = false.
Proof.
  induction s as [|c s IH]; [reflexivity|].
  simpl. destruct (isWhiteSpace c) eqn:E; [exact IH|]. simpl. exact E.
Qed.

Lemma trimStart_fixes s : headWhite s = false -> trimStart s = s.
Proof. destruct s as [|c s]; simpl; [reflexivity|]. now intros ->. Qed.

Lemma trimStart_split s :
  exists d, s = d ++ trimStart s /\ forallb isWhiteSpace d = true.
Proof.
  induction s as [|c s (d & E & W)]; [now exists []|].
  simpl. destruct (isWhiteSpace c) eqn:Ec.
  - exists (c :: d). simpl. rewrite Ec, W. split; [now f_equal|reflexivity].
  - now exists [].
Qed.

Lemma trimEnd_split s :
  exists d, s = trimEnd s ++ d /\ forallb isWhiteSpace d = true.
Proof.
  destruct (trimStart_split (rev s)) as (d & E & W).
  exists (rev d). unfold trimEnd. split.
  - apply (f_equal (@rev N)) in E.
    now rewrite rev_involutive, rev_app_distr in E.
  - apply forallb_forall. intros c Hc. apply in_rev in Hc.
    now apply (proj1 (forallb_forall _ _) W).
Qed.

Lemma trimEnd_head s : headWhite s = false -> headWhite (trimEnd s) = false.
Proof.
  intros H. destruct (trimEnd_split s) as (d & E & _).
  destruct (trimEnd s) as [|c u]; [reflexivity|].
  rewrite E in H. exact H.
Qed.

Lemma trim_trimmed s : trimmed (trim s) = true.
Proof.
  unfold trimmed, trim. rewrite (trimEnd_head _ (trimStart_head s)).
  unfold trimEnd. now rewrite rev_involutive, trimStart_head.
Qed.

Lemma trimmed_parts s :
  trimmed s = true <-> headWhite s = false /\ headWhite (rev s) = false.
Proof. unfold trimmed. now rewrite andb_true_iff, !negb_true_iff. Qed.

Lemma trim_fixes s : trimmed s = true -> trim s = s.
Proof.
  intros [H1 H2]%trimmed_parts. unfold trim, trimEnd.
  rewrite (trimStart_fixes _ H1), (trimStart_fixes _ H2).
  apply rev_involutive.
Qed.

Lemma trim_In c s : In c (trim s) -> In c s.
Proof.
  intros H. destruct (trimStart_split s) as (d & E & _).
  destruct (trimEnd_split (trimStart s)) as (d' & E' & _).
  rewrite E, E'. apply in_or_app. right. apply in_or_app. now left.
Qed.

Lemma trim_empty s : trim s = [] <-> forallb isWhiteSpace s = true.
Proof.
  split.
  - intros H. destruct (trimStart_split s) as (d & E & W).
    destruct (trimEnd_split (trimStart s)) as (d' & E' & W').
    fold (trim s) in E'. rewrite H in E'. simpl in E'.
    rewrite E, E', forallb_app, W, W'. reflexivity.
  - intros H. unfold trim.
    assert (E : trimStart s = []).
    { induction s as [|c s IH]; [reflexivity|].
      simpl in *. apply andb_true_iff in H as [-> H]. now apply IH. }
    now rewrite E.
Qed.

Lemma trimmedValue_Some v t :
  trimmedValue v = Some t -> nonEmpty t = true /\ trimmed t = true.
Proof.
  destruct v as [v|]; simpl; [|discriminate].
  destruct (nonEmpty (trim v)) eqn:E; [|discriminate].
  intros [= <-]. split; [exact E|apply trim_trimmed].
Qed.

Lemma trimmedValue_None v :
  trimmedValue v = None <->
  v = None \/ exists text, v = Some text /\ forallb isWhiteSpace text = true.
Proof.
  destruct v as [v|]; simpl.
  - destruct (trim v) as [|c u] eqn:E; simpl.
    + split; [|reflexivity]. intros _. right. exists v.
      split; [reflexivity|now apply trim_empty].
    + split; [discriminate|]. intros [[=]|(text & [= <-] & W)].
      apply trim_empty in W. congruence.
  - split; [now left|reflexivity].
Qed.

Lemma splitOn_free sep s :
  List.Forall (fun piece => ~ In sep piece) (splitOn sep s).
Proof.
  induction s as [|c s IH]; simpl.
  - constructor; [intros []|constructor].
  - destruct (N.eqb_spec c sep) as [->|Hne].
    + constructor; [intros []|exact IH].
    + destruct (splitOn sep s) as [|piece pieces].
      * constructor; [|constructor]. intros [E|[]]. now apply Hne.
      * inversion IH as [|? ? Hp Hps]; subst. constructor; [|exact Hps].
        intros [E|Hin]; [now apply Hne|now apply Hp].
Qed.

Lemma splitOn_piece sep t : ~ In sep t -> splitOn sep t = [t].
Proof.
  induction t as [|c t IH]; [reflexivity|].
  intros H. simpl. destruct (N.eqb_spec c sep) as [->|Hne].
  - exfalso. apply H. now left.
  - rewrite IH; [reflexivity|]. intros Hin. apply H. now right.
Qed.

Lemma splitOn_app sep t rest :
  ~ In sep t -> splitOn sep (t ++ sep :: rest) = t :: splitOn sep rest.
Proof.
  induction t as [|c t IH]; intros H; simpl.
  - now rewrite N.eqb_refl.
  - destruct (N.eqb_spec c sep) as [->|Hne].
    + exfalso. apply H. now left.
    + rewrite IH; [reflexivity|]. intros Hin. apply H. now right.
Qed.

Lemma splitOn_space s :
  map trim (splitOn comma (32%N :: s)) = map trim (splitOn comma s).
Proof.
  change (splitOn comma (32%N :: s))
    with (match splitOn comma s with
          | piece :: pieces => (32%N :: piece) :: pieces
          | [] => [[32%N]]
          end).
  pose proof (splitOn_free comma s) as F.
  destruct (splitOn comma s) as [|piece pieces] eqn:E.
  - exfalso. destruct s as [|c s]; simpl in E; [discriminate|].
    destruct (c =? comma)%N; [discriminate|].
    destruct (splitOn comma s); discriminate.
  - reflexivity.
Qed.

Lemma goodTag_parts t :
  goodTag t = true <->
  nonEmpty t = true /\ trimmed t = true /\ ~ In comma t.
Proof.
  unfold goodTag. rewrite !andb_true_iff, forallb_forall. split.
  - intros [[H1 H2] H3]. repeat split; try assumption.
    intros Hin. specialize (H3 _ Hin). now rewrite N.eqb_refl in H3.
  - intros (H1 & H2 & H3). repeat split; try assumption.
    intros c Hc. apply negb_true_iff, N.eqb_neq. intros ->. now apply H3.
Qed.

Lemma tagsOf_goodTag input t : In t (tagsOf input) -> goodTag t = true.
Proof.
  unfold tagsOf. intros [Hin Hne]%filter_In.
  apply in_map_iff in Hin as (piece & <- & Hpiece).
  apply goodTag_parts. repeat split; [exact Hne|apply trim_trimmed|].
  intros Hc%trim_In.
  pose proof (splitOn_free comma
                (match input with Some v => v | None => [] end)) as F.
  rewrite List.Forall_forall in F. now apply (F _ Hpiece).
Qed.

Lemma joinTags_parsed ts :
  (forall t, In t ts -> goodTag t = true) ->
  tagsOf (Some (joinTags ts)) = ts.
Proof.
  intros Hgood. unfold tagsOf.
  assert (Hkeep : List.filter nonEmpty ts = ts).
  { clear -Hgood. induction ts as [|t ts IH]; [reflexivity|].
    simpl. destruct (proj1 (goodTag_parts t) (Hgood t (or_introl eq_refl)))
      as (-> & _). f_equal. apply IH. intros u Hu. apply Hgood. now right. }
  destruct ts as [|t ts]; [reflexivity|].
  rewrite <- Hkeep at 2. f_equal. clear Hkeep.
  revert t Hgood. induction ts as [|u ts IH]; intros t Hgood.
  - destruct (proj1 (goodTag_parts t) (Hgood t (or_introl eq_refl)))
      as (_ & Ht & Hc).
    simpl joinTags. rewrite (splitOn_piece _ _ Hc). simpl.
    now rewrite (trim_fixes _ Ht).
  - destruct (proj1 (goodTag_parts t) (Hgood t (or_introl eq_refl)))
      as (_ & Ht & Hc).
    change (joinTags (t :: u :: ts))
      with (t ++ comma :: 32%N :: joinTags (u :: ts)).
    rewrite (splitOn_app _ _ _ Hc). cbn [map].
    rewrite (trim_fixes _ Ht), splitOn_space. f_equal.
    apply IH. intros v Hv. apply Hgood. now right.
Qed.

(** X23: [submit] answers "Title is required" exactly when the title
    input is missing or holds white space only.  Otherwise the request
    carries the title trimmed and not empty, a password trimmed, and as
    slug either the typed one, trimmed and not empty, or, that one
    being missing or blank, the slug made of the title. *)
Theorem submit_title_and_slug toLowerCase form :
  match submit toLowerCase form with
  | TitleRequired =>
      titleInput form = None
      \/ exists text, titleInput form = Some text
                      /\ forallb isWhiteSpace text = true
  | Requested r =>
      (exists text, titleInput form = Some text /\ req_title r = trim text)
      /\ nonEmpty (req_title r) = true
      /\ trimmed (req_title r) = true
      /\ trimmed (req_password r) = true
      /\ req_visibility r = visibility form
      /\ ((exists text, slugInput form = Some text
                        /\ req_slug r = trim text
                        /\ nonEmpty (req_slug r) = true)
          \/ ((slugInput form = None
               \/ exists text, slugInput form = Some text
                               /\ forallb isWhiteSpace text = true)
              /\ req_slug r = slugify toLowerCase (req_title r)
              /\ slugShaped (req_slug r) = true))
  end.
Proof.
  unfold submit. destruct (trimmedValue (titleInput form)) as [title|] eqn:T.
  - destruct (trimmedValue_Some _ _ T) as [Hne Htr]. cbn.
    split; [|split; [exact Hne|split; [exact Htr|split; [|split]]]].
    + destruct (titleInput form) as [text|]; [|discriminate]. exists text.
      split; [reflexivity|]. simpl in T.
      destruct (nonEmpty (trim text)); [congruence|discriminate].
    + destruct (trimmedValue (passwordInput form)) as [pw|] eqn:P.
      * now destruct (trimmedValue_Some _ _ P).
      * reflexivity.
    + reflexivity.
    + destruct (trimmedValue (slugInput form)) as [slug|] eqn:S.
      * left. destruct (slugInput form) as [text|]; [|discriminate].
        exists text. simpl in S.
        destruct (nonEmpty (trim text)) eqn:E; [|discriminate].
        injection S as <-. now repeat split.
      * right. split; [now apply trimmedValue_None|]. split; [reflexivity|].
        apply slugShaped_parts. unfold slugify.
        pose proof (replaceRuns_units false (toLowerCase title)) as Hu.
        pose proof (replaceRuns_single false (toLowerCase title)) as Hs.
        repeat split.
        -- now apply stripTrailing_units, stripLeading_units.
        -- now apply stripTrailing_single, stripLeading_single.
        -- now apply stripTrailing_start, stripLeading_start.
        -- now apply stripTrailing_end, stripLeading_single.
  - now apply trimmedValue_None.
Qed.

(** A title of punctuation only passes the check of [submit] and gets
    the empty slug. *)
Example submit_punctuation :
  submit asciiLower
    (mkForm (Some (codeUnits " ?! ")) (Some (codeUnits "  ")) None None
            Public)
  = Requested (mkRequest (codeUnits "?!") [] Public [] []).
Proof. reflexivity. Qed.

(** X24: every tag that the tags text yields is not empty, has no white
    space at either end and holds no comma; this for the form and for
    the default tags of the settings tab alike. *)
Theorem tagsOf_good input :
  List.Forall (fun t => goodTag t = true) (tagsOf input).
Proof.
  apply List.Forall_forall. intros t Ht.
  now apply (tagsOf_goodTag input).
Qed.

(** X25: default tags parsed from the text of the settings tab, shown
    again joined by ", " (in the settings tab or as the prefilled tags
    of the form) and parsed again unchanged, are the same tags. *)
Theorem tagsOf_prefilled text :
  tagsOf (Some (joinTags (tagsOf (Some text)))) = tagsOf (Some text).
Proof.
  apply joinTags_parsed. intros t Ht.
  now apply (tagsOf_goodTag (Some text)).
Qed.

Example tags_from_text :
  tagsOf (Some (codeUnits " blog ,,draft,  two words ,"))
  = [codeUnits "blog"; codeUnits "draft"; codeUnits "two words"].
Proof. reflexivity. Qed.

(** ** The streak notice *)

(** X26: on a list of "YYYY-MM-DD" days the graph of the streak notice
    agrees with the streak it announces: the cell of every day less
    than [streak] days back is filled, and the cell of the day [streak]
    days back, when the graph reaches that far, is empty. *)
Theorem last7_shows_streak h p :
  forallb isoDay (dates (streakData p)) = true ->
  length (last7 h p) = 7%nat
  /\ Forall2 (fun i cell =>
                (Z.of_nat i < getWritingStreak h p -> cell = true)
                /\ (Z.of_nat i = getWritingStreak h p -> cell = false))
             graphDays (last7 h p).
Proof.
  intros Hiso. split; [reflexivity|].
  apply isoDay_all in Hiso.
  destruct (getWritingStreak_run_exists h p Hiso) as (n & Hrun & Hgap & ->).
  unfold last7, graphDays. cbn [map].
  repeat constructor.
  all: try (intros Hlt; apply includes_In, Hrun; lia).
  all: intros Heq; apply Nat2Z.inj in Heq; subst n; now apply includes_false.
Qed.

Lemma last7_shows_streak_witness :
  forallb isoDay (dates (streakData exWriter)) = true
  /\ last7 exHost exWriter = [false; false; true; false; true; true; true]
  /\ getWritingStreak exHost exWriter = 3
  /\ Forall2 (fun i cell =>
                (Z.of_nat i < getWritingStreak exHost exWriter -> cell = true)
                /\ (Z.of_nat i = getWritingStreak exHost exWriter -> cell = false))
             graphDays (last7 exHost exWriter).
Proof.
  split; [reflexivity|]. split; [reflexivity|]. split; [reflexivity|].
  apply (last7_shows_streak exHost exWriter). reflexivity.
Defined.

Example streak_notice :
  showStreakNotice exStartOfWeek exFormatWeek exHost exWriter
  = [Notice ("Writing streak: 3 days" +:+ newline
             +:+ "6 writing days · 0 publish days recorded" +:+ newline
             +:+ "Last 7 days: ░░█░███")].
Proof. reflexivity. Qed.
